(** * xmlmonster: the two HTTP handlers, embedded and verified

    The repository holds two [package main] programs.

    - [src/main.go] is the validating variant: it serves [/upload] over
      plain HTTP and answers according to whether the body decodes with
      [encoding/xml].
    - [src/unnamed/part_000] is the persisting variant: it serves [/upload]
      and [/read] backed by a MinIO bucket, minting one object key per
      upload from an [atomic.Int64].

    Both are embedded below as Rocq functions over a model of
    [http.ResponseWriter], [*http.Request] and [io.Reader]; the persisting
    handler threads its receiver (counter and blob store) explicitly. *)

From Stdlib Require Import ZArith List Ascii String Lia.
From Stdlib.Strings Require Import Byte.
From Stdlib Require Import DecimalString DecimalZ.
From stdpp Require Import base option list gmap strings.

Local Open Scope Z_scope.
Local Open Scope string_scope.

(** ** Go values shared by both programs *)

Module Go.

(** A Go [error] value; only its presence matters to the handlers. *)
Definition error := string.

(** [[]byte(s)] for a string [s]. *)
Definition bytes (s : string) : list byte := list_byte_of_string s.

(** [string(b)] for a byte slice [b]. *)
Definition string_of_bytes (b : list byte) : string := string_of_list_byte b.

(** An [io.Reader] seen through its only use in the sources, a full drain:
    the bytes it delivers, and the error (if any) that ends the stream in
    place of [io.EOF]. *)
Record Reader := mkReader {
  delivered : list byte;
  failure : option error
}.

(** [io.ReadAll]: everything read until EOF or the first error, together
    with that error. *)
Definition io_ReadAll (r : Reader) : list byte * option error :=
  (delivered r, failure r).

(** [map[string][]string], the shape of [http.Header] and [url.Values];
    both [Get] methods return the first value of the key, or [""]. *)
Definition Values_Get (v : gmap string (list string)) (key : string) : string :=
  match v !! key with
  | Some (x :: _) => x
  | _ => ""
  end.

(** [fmt.Sprintf("%d", n)] *)
Definition fmt_d (n : Z) : string := NilZero.string_of_int (Z.to_int n).

(** Two's complement wrap-around of a 64-bit signed integer. *)
Definition wrap64 (z : Z) : Z := (z + 2 ^ 63) mod 2 ^ 64 - 2 ^ 63.

(** The [Add] method of [atomic.Int64]: the new value, which is also
    what is stored. *)
Definition Int64_Add (v delta : Z) : Z := wrap64 (v + delta).

End Go.

(** ** net/http as the handlers use it *)

Module Http.
Import Go.

Definition MethodGet : string := "GET".
Definition MethodPost : string := "POST".

Definition StatusOK : Z := 200.
Definition StatusBadRequest : Z := 400.
Definition StatusMethodNotAllowed : Z := 405.
Definition StatusInternalServerError : Z := 500.

(** The fields of [*http.Request] read by the handlers: [r.Method],
    [r.URL.Path], [r.URL.Query()], [r.Header] (keys in canonical form, as
    the server stores them) and [r.Body]. *)
Record Request := mkRequest {
  Method : string;
  Path : string;
  Query : gmap string (list string);
  Header : gmap string (list string);
  Body : Reader
}.

(** [http.ResponseWriter]: the header map the handler may still edit, and
    what has gone to the client: whether the status line was written, the
    status and headers frozen at that moment, and the body bytes so far. *)
Record ResponseWriter := mkResponseWriter {
  header : gmap string (list string);
  wroteHeader : bool;
  status : Z;
  sentHeader : gmap string (list string);
  written : list byte
}.

Definition newResponseWriter : ResponseWriter :=
  mkResponseWriter ∅ false 0 ∅ [].

(** [w.Header().Set(key, value)] *)
Definition Header_Set (key value : string) (w : ResponseWriter) : ResponseWriter :=
  mkResponseWriter (<[key := [value]]> (header w)) (wroteHeader w) (status w)
                   (sentHeader w) (written w).

(** [w.WriteHeader(code)]: the first call fixes the status and the headers;
    a later call is superfluous and changes nothing. *)
Definition WriteHeader (code : Z) (w : ResponseWriter) : ResponseWriter :=
  if wroteHeader w then w
  else mkResponseWriter (header w) true code (header w) (written w).

(** [w.Write(data)]: writes the status line with 200 first when no
    [WriteHeader] preceded it, then appends to the body. *)
Definition Write (data : list byte) (w : ResponseWriter) : ResponseWriter :=
  let w' := WriteHeader StatusOK w in
  mkResponseWriter (header w') (wroteHeader w') (status w') (sentHeader w')
                   (written w' ++ data).

(** The response as the handler leaves it with the server: the status, the
    headers the handler had set when the status line went out, and the
    body bytes it wrote.  What the server does on its own behalf (headers
    it adds, requests it answers without calling the handler) is outside
    this record. *)
Record Response := mkResponse {
  StatusCode : Z;
  RespHeader : gmap string (list string);
  RespBody : list byte
}.

(** When the handler returns, the server sends status 200 if the handler
    wrote none. *)
Definition finish (w : ResponseWriter) : Response :=
  let w' := WriteHeader StatusOK w in
  mkResponse (status w') (sentHeader w') (written w').

End Http.

(** ** The constants of both programs *)

Definition uploadPath : string := "/upload".
Definition readFilePath : string := "/read".
Definition contentTypeTextXML : string := "text/xml".
Definition contentTypeApplicationXML : string := "application/xml".

(** The body of [writeNotFound], identical in both programs. *)
Definition notFoundBody : list byte :=
  Go.bytes "<p>Oops, you walked the wrong path</p>".

(** The condition [contentType != contentTypeTextXML && contentType !=
    contentTypeApplicationXML] of both upload paths. *)
Definition contentTypeRejected (contentType : string) : bool :=
  negb (String.eqb contentType contentTypeTextXML)
  && negb (String.eqb contentType contentTypeApplicationXML).

(** ** The validating variant, [src/main.go] *)

Module Validating.
Import Go Http.

Record xmlPayload := mkXmlPayload {
  UserFrom : string;
  UserTo : string;
  Message : string
}.

(** [xmlPayload{}] *)
Definition zeroPayload : xmlPayload := mkXmlPayload "" "" "".

Section WithDecoder.

(** [xml.NewDecoder(body).Decode(&v)] belongs to the Go standard
    library, not to this repository: it is a parameter here.  It takes
    the reader and the value behind the pointer and gives the value
    after the call together with the returned error. *)
Variable xml_Decode : Reader -> xmlPayload -> xmlPayload * option error.

Definition writeNotFound (w : ResponseWriter) : ResponseWriter :=
  Write notFoundBody w.

Definition handleUpload (w : ResponseWriter) (r : Request) : ResponseWriter :=
  let v := zeroPayload in
  match snd (xml_Decode (Body r) v) with
  | Some _ => WriteHeader StatusBadRequest w
  | None => WriteHeader StatusOK w
  end.

Definition ServeHTTP (w : ResponseWriter) (r : Request) : ResponseWriter :=
  if negb (String.eqb (Path r) uploadPath) then writeNotFound w
  else if negb (String.eqb (Method r) MethodPost) then
    WriteHeader StatusMethodNotAllowed w
  else if contentTypeRejected (Values_Get (Header r) "Content-Type") then
    WriteHeader StatusBadRequest w
  else handleUpload w r.

(** One request through the server: a fresh writer, the handler, and
    the response as sent. *)
Definition serve (r : Request) : Response :=
  finish (ServeHTTP newResponseWriter r).

End WithDecoder.

End Validating.

(** ** The persisting variant, [src/unnamed/part_000] *)

Module Persisting.
Import Go Http.

(** The two methods of [*minio.Client] the handlers call.  The client is
    an external collaborator: [S] is whatever state stands behind it, a
    put gives the state after the call and the returned error, a get gives
    the state after the call and either the object (an [io.Reader] yet to
    be drained) or the error.  The context and option arguments are not
    inspected by the handlers and are left out. *)
Class BlobStore (S : Type) := {
  PutObject : S -> string -> string -> list byte -> S * option error;
  GetObject : S -> string -> string -> S * (Reader + error)
}.

(** The calls made on the client, oldest first, with bucket and key. *)
Inductive StoreCall :=
| CallPut (bucket key : string) (data : list byte)
| CallGet (bucket key : string).

Section WithStore.
Context {S : Type} `{BlobStore S}.

(** [xmlParseHandler]: [cli] is the state behind the client pointer and
    [reqCount] the value of the [atomic.Int64].  [calls] is not a field
    of the Go struct: it records the client calls made so far, so that
    statements can speak about whether and with which key the store was
    reached. *)
Record xmlParseHandler := mkHandler {
  cli : S;
  reqCount : Z;
  calls : list StoreCall
}.

(** [newXMLParseHandler(cli)]: the counter starts at its zero value. *)
Definition newXMLParseHandler (c : S) : xmlParseHandler :=
  mkHandler c 0 [].

(** [xph.cli.PutObject(ctx, bucket, key, bytes.NewBuffer(data), len, opts)] *)
Definition cli_PutObject (xph : xmlParseHandler) (bucket key : string)
    (data : list byte) : xmlParseHandler * option error :=
  let '(c, err) := PutObject (cli xph) bucket key data in
  (mkHandler c (reqCount xph) (calls xph ++ [CallPut bucket key data]), err).

(** [xph.cli.GetObject(ctx, bucket, key, opts)] *)
Definition cli_GetObject (xph : xmlParseHandler) (bucket key : string)
    : xmlParseHandler * (Reader + error) :=
  let '(c, res) := GetObject (cli xph) bucket key in
  (mkHandler c (reqCount xph) (calls xph ++ [CallGet bucket key]), res).

Definition httpWrite (w : ResponseWriter) (statusCode : Z) (data : list byte)
    : ResponseWriter :=
  let w := WriteHeader statusCode w in
  if (0 <? Z.of_nat (length data))%Z then Write data w else w.

Definition writeNotFound (w : ResponseWriter) : ResponseWriter :=
  Write notFoundBody w.

Definition composeBucketID (xph : xmlParseHandler) : string * xmlParseHandler :=
  let n := Int64_Add (reqCount xph) 1 in
  ("xmlobject/" +:+ fmt_d n, mkHandler (cli xph) n (calls xph)).

Definition handleUpload (xph : xmlParseHandler) (w : ResponseWriter) (r : Request)
    : xmlParseHandler * ResponseWriter :=
  if negb (String.eqb (Method r) MethodPost) then
    (xph, WriteHeader StatusMethodNotAllowed w)
  else if contentTypeRejected (Values_Get (Header r) "Content-Type") then
    (xph, WriteHeader StatusBadRequest w)
  else
    let '(rawXML, err) := io_ReadAll (Body r) in
    match err with
    | Some _ =>
        (xph, httpWrite w StatusInternalServerError
                (bytes "failed to read content from body"))
    | None =>
        let '(bucketID, xph) := composeBucketID xph in
        let '(xph, err) := cli_PutObject xph "bucket1" bucketID rawXML in
        match err with
        | Some _ =>
            (xph, httpWrite w StatusInternalServerError
                    (bytes "failed to upload object"))
        | None => (xph, httpWrite w StatusOK (bytes bucketID))
        end
    end.

(** The branch on the [io.ReadAll] error has no [return]: control falls
    through to the last [httpWrite]. *)
Definition handleRead (xph : xmlParseHandler) (w : ResponseWriter) (r : Request)
    : xmlParseHandler * ResponseWriter :=
  if negb (String.eqb (Method r) MethodGet) then
    (xph, WriteHeader StatusMethodNotAllowed w)
  else
    let w := Header_Set "Content-Type" contentTypeApplicationXML w in
    let bucketID := Values_Get (Query r) "bucket_id" in
    if String.eqb bucketID "" then
      (xph, httpWrite w StatusBadRequest (bytes "bucket_id is required"))
    else
      let '(xph, res) := cli_GetObject xph "bucket1" bucketID in
      match res with
      | inr _ =>
          (xph, httpWrite w StatusInternalServerError
                  (bytes "failed to get object"))
      | inl obj =>
          let '(data, err) := io_ReadAll obj in
          let w :=
            match err with
            | Some _ =>
                httpWrite w StatusInternalServerError
                  (bytes "failed to read object")
            | None => w
            end in
          (xph, httpWrite w StatusOK data)
      end.

Definition ServeHTTP (xph : xmlParseHandler) (w : ResponseWriter) (r : Request)
    : xmlParseHandler * ResponseWriter :=
  if String.eqb (Path r) uploadPath then handleUpload xph w r
  else if String.eqb (Path r) readFilePath then handleRead xph w r
  else (xph, writeNotFound w).

(** One request through the server. *)
Definition serve (xph : xmlParseHandler) (r : Request) : xmlParseHandler * Response :=
  let '(xph, w) := ServeHTTP xph newResponseWriter r in (xph, finish w).

(** A sequential run: the requests are served one after the other; the
    responses come back in the same order. *)
Fixpoint run (xph : xmlParseHandler) (rs : list Request)
    : xmlParseHandler * list Response :=
  match rs with
  | [] => (xph, [])
  | r :: rs =>
      let '(xph, resp) := serve xph r in
      let '(xph, resps) := run xph rs in
      (xph, resp :: resps)
  end.

(** The requests on which [handleUpload] gets as far as
    [composeBucketID]: path, method, content type and body read pass. *)
Definition mints (r : Request) : bool :=
  String.eqb (Path r) uploadPath
  && String.eqb (Method r) MethodPost
  && negb (contentTypeRejected (Values_Get (Header r) "Content-Type"))
  && match failure (Body r) with None => true | Some _ => false end.

End WithStore.

Arguments xmlParseHandler S : clear implicits.

(** The keys a run handed back to its clients, in order: the bodies of the
    200 responses to requests on [/upload]. *)
Definition returnedKeys (rs : list Request) (resps : list Response) : list (list byte) :=
  omap (fun p : Request * Response =>
          if String.eqb (Path (fst p)) uploadPath && (StatusCode (snd p) =? StatusOK)%Z
          then Some (RespBody (snd p)) else None)
       (zip rs resps).

End Persisting.

(** ** Concurrent uploads

    The HTTP server runs [ServeHTTP] in one goroutine per request.  The only
    state the goroutines share is the receiver: the counter, reached through
    one atomic [Add], and the store behind the client.  A goroutine serving
    an upload that passes its checks therefore has two steps that other
    goroutines can observe or come in between: the atomic increment inside
    [composeBucketID], and the [PutObject] call; everything else it does is
    local to the request.  Any other request has at most one such step (the
    [GetObject] of a read). *)

Module Concurrent.
Import Go Http Persisting.

Inductive Goroutine :=
| Pending (r : Request)
    (* the request has arrived, its handler has not touched the receiver *)
| Minted (bucketID : string) (rawXML : list byte)
    (* [handleUpload] between [composeBucketID] and [PutObject] *)
| Replied (bucketID : option string) (resp : Response).
    (* the handler returned; the key it minted, if it minted one *)

Section WithStore.
Context {S : Type} `{BlobStore S}.

(** [handleUpload] from the [PutObject] call to its end. *)
Definition storeAndReply (xph : xmlParseHandler S) (w : ResponseWriter)
    (bucketID : string) (rawXML : list byte) : xmlParseHandler S * ResponseWriter :=
  let '(xph, err) := cli_PutObject xph "bucket1" bucketID rawXML in
  match err with
  | Some _ =>
      (xph, httpWrite w StatusInternalServerError
              (bytes "failed to upload object"))
  | None => (xph, httpWrite w StatusOK (bytes bucketID))
  end.

(** The receiver, the goroutines, and the values the counter's [Add]
    has returned so far, oldest first, each with the index of the
    goroutine that received it. *)
Record System := mkSystem {
  shared : xmlParseHandler S;
  pool : list Goroutine;
  history : list (nat * Z)
}.

Definition spawn (xph : xmlParseHandler S) (rs : list Request) : System :=
  mkSystem xph (Pending <$> rs) [].

(** Goroutine [i] takes its next step; nothing happens when there is no
    such goroutine or it has returned. *)
Definition step (i : nat) (sys : System) : System :=
  match pool sys !! i with
  | Some (Pending r) =>
      if mints r then
        let '(bucketID, xph) := composeBucketID (shared sys) in
        mkSystem xph
                 (<[i := Minted bucketID (delivered (Body r))]> (pool sys))
                 (history sys ++ [(i, reqCount xph)])
      else
        let '(xph, resp) := serve (shared sys) r in
        mkSystem xph (<[i := Replied None resp]> (pool sys)) (history sys)
  | Some (Minted bucketID rawXML) =>
      let '(xph, w) := storeAndReply (shared sys) newResponseWriter bucketID rawXML in
      mkSystem xph (<[i := Replied (Some bucketID) (finish w)]> (pool sys))
               (history sys)
  | _ => sys
  end.

(** A schedule names the goroutine that moves at each instant. *)
Definition exec (sched : list nat) (sys : System) : System :=
  fold_left (fun sys i => step i sys) sched sys.

(** The key a goroutine holds. *)
Definition keyOf (g : Goroutine) : option string :=
  match g with
  | Pending _ => None
  | Minted bucketID _ => Some bucketID
  | Replied bucketID _ => bucketID
  end.

(** The key an upload returned to its client: the handler replied 200. *)
Definition returnedKey (g : Goroutine) : option string :=
  match g with
  | Replied (Some bucketID) resp =>
      if (StatusCode resp =? StatusOK)%Z then Some bucketID else None
  | _ => None
  end.

(** How many goroutines of a pool hold a key. *)
Definition holds (g : Goroutine) : nat :=
  match keyOf g with Some _ => 1 | None => 0 end.

Definition holders (p : list Goroutine) : nat := sum_list (holds <$> p).

(** What every reachable system satisfies while the counter cannot wrap:
    the counter equals the number of increments made, the k-th increment
    returned k, every key held by a goroutine renders a number that this
    goroutine received, and an upload that replied did so with its own key
    or with the store failure. *)
Record consistent (sys : System) : Prop := mkConsistent {
  cons_count : length (history sys) = holders (pool sys);
  cons_counter : reqCount (shared sys) = Z.of_nat (length (history sys));
  cons_numbers :
    forall (a i : nat) (n : Z), history sys !! a = Some (i, n) -> n = Z.of_nat a + 1;
  cons_keys :
    forall (i : nat) (g : Goroutine) (k : string),
      pool sys !! i = Some g -> keyOf g = Some k ->
      exists n : Z, (i, n) ∈ history sys /\ k = "xmlobject/" +:+ fmt_d n;
  cons_replies :
    forall (i : nat) (k : string) (resp : Response),
      pool sys !! i = Some (Replied (Some k) resp) ->
      resp = mkResponse StatusOK ∅ (bytes k)
      \/ resp = mkResponse StatusInternalServerError ∅ (bytes "failed to upload object")
}.

End WithStore.

Arguments System S : clear implicits.

End Concurrent.

(** ** An in-memory blob store

    A store to run the handlers against: objects by bucket and key, a list
    saying which of the coming puts fail, and an optional cut after which
    the object stream of a get breaks. *)

Module MemStore.
Import Go Persisting.

Record t := mk {
  objects : gmap (string * string) (list byte);
  putFaults : list bool;
  readCut : option nat
}.

Definition empty : t := mk ∅ [] None.

Definition put (s : t) (bucket key : string) (data : list byte) : t * option error :=
  match putFaults s with
  | true :: fs => (mk (objects s) fs (readCut s), Some "put: store unavailable")
  | _ :: fs => (mk (<[(bucket, key) := data]> (objects s)) fs (readCut s), None)
  | [] => (mk (<[(bucket, key) := data]> (objects s)) [] (readCut s), None)
  end.

Definition get (s : t) (bucket key : string) : t * (Reader + error) :=
  match objects s !! (bucket, key) with
  | None => (s, inr "get: no such key")
  | Some d =>
      match readCut s with
      | None => (s, inl (mkReader d None))
      | Some n => (s, inl (mkReader (take n d) (Some "read: connection reset")))
      end
  end.

#[global] Instance blobStore : BlobStore t :=
  {| PutObject := put; GetObject := get |}.

End MemStore.

(** ** Reading the record of client calls *)

Module Calls.
Import Go Persisting.

(** The keys of the puts in a record of calls, oldest first. *)
Definition putKeys (cs : list StoreCall) : list string :=
  omap (fun c => match c with
                 | CallPut _ key _ => Some key
                 | CallGet _ _ => None
                 end) cs.

(** The bucket a call addressed. *)
Definition bucketOf (c : StoreCall) : string :=
  match c with
  | CallPut bucket _ _ => bucket
  | CallGet bucket _ => bucket
  end.

Section WithStore.
Context {S : Type} `{BlobStore S}.

(** [composeBucketID] called [k] times in a row on the same receiver. *)
Definition mintTimes (k : nat) (xph : xmlParseHandler S) : xmlParseHandler S :=
  Nat.iter k (fun x => snd (composeBucketID x)) xph.

End WithStore.

End Calls.

(** ** Schedules that run the goroutines one after the other *)

Module Schedules.
Import Go Http Concurrent.

(** Goroutines [first], [first + 1], ... ([count] of them), each taking its
    two steps back to back before the next one starts. *)
Definition oneByOne (first count : nat) : list nat :=
  flat_map (fun i => [i; i]) (seq first count).

(** The response of a goroutine that has returned. *)
Definition replyOf (g : Goroutine) : option Response :=
  match g with
  | Replied _ resp => Some resp
  | _ => None
  end.

End Schedules.

(** ** Start-up of the persisting program

    [main] of [src/unnamed/part_000] up to the call that starts serving:
    the object-storage client, then the two environment variables.  The
    signal handling and the shutdown goroutine that follow are not
    represented. *)

Module Startup.
Import Go.

Definition certFileEnv : string := "CERT_FILE".
Definition keyFileEnv : string := "KEY_FILE".

(** [os.Getenv]: the value of the variable, or [""] when it is not set. *)
Definition os_Getenv (env : gmap string string) (key : string) : string :=
  default "" (env !! key).

(** How [main] ends its start-up: [log.Fatal] with a message, or the call
    [serv.ListenAndServeTLS(certFile, keyFile)] on the server's address. *)
Inductive Outcome :=
| Fatal (msg : string)
| ListenAndServeTLS (addr certFile keyFile : string).

(** [mustObjectStorage]: [minio.New] is the client library's; its error, if
    any, is given.  [log.Fatal] prints its operands one after the other
    (no space is put next to a string operand). *)
Definition mustObjectStorage (minio_New : option error) : option string :=
  match minio_New with
  | Some err => Some ("failed to init object storage" +:+ err)
  | None => None
  end.

Definition main (env : gmap string string) (minio_New : option error) : Outcome :=
  match mustObjectStorage minio_New with
  | Some msg => Fatal msg
  | None =>
      let certFile := os_Getenv env certFileEnv in
      if String.eqb certFile "" then
        Fatal ("Missing required environment variable: " +:+ certFileEnv)
      else
        let keyFile := os_Getenv env keyFileEnv in
        if String.eqb keyFile "" then
          Fatal ("Missing required environment variable: " +:+ keyFileEnv)
        else ListenAndServeTLS ":8000" certFile keyFile
  end.

End Startup.

(** ** The XML decoder of the Go standard library

    [xml.NewDecoder(r.Body).Decode(&v)] for [v] of type [xmlPayload], on a
    subset of its inputs.  The decoder reads the body one byte at a time
    and stops as soon as the first element has been closed; what follows
    is never read.  The subset: element names made of ASCII letters,
    digits and underscores, no attributes, and character data made of
    printable ASCII, tab and line feed without [&] and []].  On anything
    else (processing instructions, comments, CDATA, entities, attributes,
    prefixed or non-ASCII names, other bytes) the model stops with
    [NotModelled] and says nothing. *)

Module XmlDecoder.
Import Go Validating.

Definition isNameStart (b : byte) : bool :=
  let n := Byte.to_N b in
  (((65 <=? n) && (n <=? 90)) || ((97 <=? n) && (n <=? 122)) || (n =? 95))%N.

Definition isNameByte (b : byte) : bool :=
  let n := Byte.to_N b in
  isNameStart b || ((48 <=? n) && (n <=? 57))%N.

(** Bytes the decoder accepts in a name and the model does not follow:
    [-], [.], [:] and everything from 128 up. *)
Definition isOtherNameByte (b : byte) : bool :=
  let n := Byte.to_N b in
  ((n =? 45) || (n =? 46) || (n =? 58) || (128 <=? n))%N.

(** The bytes [d.space()] skips. *)
Definition isSpace (b : byte) : bool :=
  let n := Byte.to_N b in
  ((n =? 32) || (n =? 13) || (n =? 10) || (n =? 9))%N.

(** Character data the model follows. *)
Definition isPlain (b : byte) : bool :=
  let n := Byte.to_N b in
  ((n =? 9) || (n =? 10)
   || ((32 <=? n) && (n <=? 126)
       && negb (n =? 60) && negb (n =? 38) && negb (n =? 93)))%N.

Inductive Token :=
| StartElement (name : string)
| EndElement (name : string)
| CharData (data : list byte).

(** Where [rawToken] stands in the input. *)
Inductive Lexer :=
| InText (data : list byte)       (* between tags; [data] read so far *)
| AfterLt                         (* after [<] *)
| InStartName (name : list byte)  (* in the name of a start tag *)
| InStartTag (name : list byte)   (* after that name, before [>] or [/>] *)
| AfterSlash (name : list byte)   (* after the [/] of [/>] *)
| InEndName (name : list byte)    (* after [</], in the name *)
| InEndTag (name : list byte).    (* after that name, before [>] *)

Inductive Lexed :=
| Lexing (l : Lexer) (emitted : list Token)
| SyntaxError
| Unmodelled.

(** A text section is a token only when it is not empty. *)
Definition flushText (data : list byte) : list Token :=
  match data with
  | [] => []
  | _ => [CharData data]
  end.

(** After the name of a start tag: spaces, then [>], [/>] or an attribute. *)
Definition startTagByte (name : list byte) (b : byte) : Lexed :=
  if isSpace b then Lexing (InStartTag name) []
  else if Byte.eqb b "/" then Lexing (AfterSlash name) []
  else if Byte.eqb b ">" then
    Lexing (InText []) [StartElement (string_of_bytes name)]
  else Unmodelled.

(** After the name of an end tag: spaces, then [>]. *)
Definition endTagByte (name : list byte) (b : byte) : Lexed :=
  if isSpace b then Lexing (InEndTag name) []
  else if Byte.eqb b ">" then
    Lexing (InText []) [EndElement (string_of_bytes name)]
  else SyntaxError.

(** One byte through [rawToken].  A self-closing tag gives its start and
    its end token together. *)
Definition lex (l : Lexer) (b : byte) : Lexed :=
  match l with
  | InText data =>
      if isPlain b then Lexing (InText (data ++ [b])) []
      else if Byte.eqb b "<" then Lexing AfterLt (flushText data)
      else Unmodelled
  | AfterLt =>
      if isNameStart b then Lexing (InStartName [b]) []
      else if Byte.eqb b "/" then Lexing (InEndName []) []
      else if Byte.eqb b "?" || Byte.eqb b "!" then Unmodelled
      else if isNameByte b || isOtherNameByte b then Unmodelled
      else SyntaxError
  | InStartName name =>
      if isNameByte b then Lexing (InStartName (name ++ [b])) []
      else if isOtherNameByte b then Unmodelled
      else startTagByte name b
  | InStartTag name => startTagByte name b
  | AfterSlash name =>
      if Byte.eqb b ">" then
        Lexing (InText [])
          [StartElement (string_of_bytes name); EndElement (string_of_bytes name)]
      else SyntaxError
  | InEndName [] =>
      if isNameStart b then Lexing (InEndName [b]) []
      else if isNameByte b || isOtherNameByte b then Unmodelled
      else SyntaxError
  | InEndName name =>
      if isNameByte b then Lexing (InEndName (name ++ [b])) []
      else if isOtherNameByte b then Unmodelled
      else endTagByte name b
  | InEndTag name => endTagByte name b
  end.

(** The three fields of [xmlPayload], in the order of the struct. *)
Inductive Field := FUserFrom | FUserTo | FMessage.

(** The field whose tag is the name of an element, compared as written. *)
Definition fieldOf (name : string) : option Field :=
  if String.eqb name "UserFrom" then Some FUserFrom
  else if String.eqb name "UserTo" then Some FUserTo
  else if String.eqb name "Message" then Some FMessage
  else None.

Definition setField (f : Field) (s : string) (v : xmlPayload) : xmlPayload :=
  match f with
  | FUserFrom => mkXmlPayload s (UserTo v) (Message v)
  | FUserTo => mkXmlPayload (UserFrom v) s (Message v)
  | FMessage => mkXmlPayload (UserFrom v) (UserTo v) s
  end.

(** Where [unmarshal] stands: looking for the first start element, in the
    loop of the struct, in the loop of a string field with the character
    data gathered so far, or inside [d.Skip()] with its depth. *)
Inductive Position :=
| AtTop
| InRoot
| InField (f : Field) (data : list byte)
| Skipping (back : Position) (depth : nat).

(** The decoder's stack of open elements, [unmarshal]'s position and the
    value behind the pointer. *)
Record Parser := mkParser {
  stk : list string;
  pos : Position;
  val : xmlPayload
}.

(** [Token()]: a start element is pushed, an end element must close the
    element on top of the stack. *)
Definition track (s : list string) (t : Token) : option (list string) :=
  match t with
  | StartElement n => Some (n :: s)
  | EndElement n =>
      match s with
      | m :: s' => if String.eqb m n then Some s' else None
      | [] => None
      end
  | CharData _ => Some s
  end.

Inductive Fed :=
| Feeding (p : Parser)
| Done (v : xmlPayload)
| Failed.

(** One token through [Token()] and [unmarshal]. *)
Definition feed (p : Parser) (t : Token) : Fed :=
  match track (stk p) t with
  | None => Failed
  | Some s =>
      match pos p, t with
      | AtTop, StartElement _ => Feeding (mkParser s InRoot (val p))
      | AtTop, _ => Feeding (mkParser s AtTop (val p))
      | InRoot, StartElement n =>
          match fieldOf n with
          | Some f => Feeding (mkParser s (InField f []) (val p))
          | None => Feeding (mkParser s (Skipping InRoot 0) (val p))
          end
      | InRoot, EndElement _ => Done (val p)
      | InRoot, CharData _ => Feeding (mkParser s InRoot (val p))
      | InField f data, StartElement _ =>
          Feeding (mkParser s (Skipping (InField f data) 0) (val p))
      | InField f data, CharData c =>
          Feeding (mkParser s (InField f (data ++ c)) (val p))
      | InField f data, EndElement _ =>
          Feeding (mkParser s InRoot (setField f (string_of_bytes data) (val p)))
      | Skipping back depth, StartElement _ =>
          Feeding (mkParser s (Skipping back (S depth)) (val p))
      | Skipping back depth, EndElement _ =>
          match depth with
          | O => Feeding (mkParser s back (val p))
          | S d => Feeding (mkParser s (Skipping back d) (val p))
          end
      | Skipping back depth, CharData _ =>
          Feeding (mkParser s (Skipping back depth) (val p))
      end
  end.

Fixpoint feedAll (p : Parser) (ts : list Token) : Fed :=
  match ts with
  | [] => Feeding p
  | t :: ts =>
      match feed p t with
      | Feeding p' => feedAll p' ts
      | stop => stop
      end
  end.

Record Decoding := mkDecoding {
  lexer : Lexer;
  parser : Parser
}.

(** What [Decode] comes to: [nil] with the value it filled in, an error,
    or an input the model does not follow. *)
Inductive Outcome :=
| Decoded (v : xmlPayload)
| Refused
| NotModelled.

Inductive Progress :=
| Reading (d : Decoding)
| Stopped (o : Outcome).

Definition read (d : Decoding) (b : byte) : Progress :=
  match lex (lexer d) b with
  | Unmodelled => Stopped NotModelled
  | SyntaxError => Stopped Refused
  | Lexing l ts =>
      match feedAll (parser d) ts with
      | Feeding p => Reading (mkDecoding l p)
      | Done v => Stopped (Decoded v)
      | Failed => Stopped Refused
      end
  end.








(** *** Documents

    A document in the subset: a root element whose content is a sequence
    of text and of elements that hold text. *)











End XmlDecoder.

(** ** Requests used in the examples *)

Module Examples.
Import Go Http.

Definition xmlHeader : gmap string (list string) :=
  {[ "Content-Type" := ["application/xml"] ]}.

Definition jsonHeader : gmap string (list string) :=
  {[ "Content-Type" := ["application/json"] ]}.

Definition upload (body : string) : Request :=
  mkRequest "POST" "/upload" ∅ xmlHeader (mkReader (bytes body) None).

Definition read (bucketID : string) : Request :=
  mkRequest "GET" "/read" {[ "bucket_id" := [bucketID] ]} ∅ (mkReader [] None).

(** A GET on [/upload] that also declares JSON, and a POST of JSON. *)
Definition getUpload : Request :=
  mkRequest "GET" "/upload" ∅ jsonHeader (mkReader [] None).

Definition jsonUpload : Request :=
  mkRequest "POST" "/upload" ∅ jsonHeader (mkReader (bytes "<a/>") None).

(** A request outside the served paths. *)
Definition putFoo : Request :=
  mkRequest "PUT" "/foo" ∅ xmlHeader (mkReader (bytes "<a/>") None).

(** A stand-in for the decoder where a statement is instantiated: it
    refuses an empty or broken stream and accepts the rest, leaving the
    record as it was. *)
Definition decodeNonEmpty (body : Reader) (v : Validating.xmlPayload)
    : Validating.xmlPayload * option error :=
  match failure body, delivered body with
  | Some e, _ => (v, Some e)
  | None, [] => (v, Some "EOF")
  | None, _ => (v, None)
  end.

(** A store holding one object, whose object streams break after two
    bytes. *)
Definition cutStore : MemStore.t :=
  MemStore.mk {[ ("bucket1", "xmlobject/1") := bytes "<a/>" ]} [] (Some 2%nat).

(** A store whose next put fails, and one whose second put fails. *)
Definition firstPutFails : MemStore.t := MemStore.mk ∅ [true] None.
Definition secondPutFails : MemStore.t := MemStore.mk ∅ [false; true] None.

(** A handler on an empty store with no faults. *)
Definition fresh : Persisting.xmlParseHandler MemStore.t :=
  Persisting.newXMLParseHandler MemStore.empty.

(** A POST on [/read], an upload without a Content-Type header, and an
    upload whose body stream breaks. *)
Definition postRead : Request :=
  mkRequest "POST" "/read" {[ "bucket_id" := ["xmlobject/1"] ]} ∅ (mkReader [] None).

Definition bareUpload : Request :=
  mkRequest "POST" "/upload" ∅ ∅ (mkReader (bytes "<a/>") None).

Definition brokenUpload : Request :=
  mkRequest "POST" "/upload" ∅ xmlHeader
    (mkReader (bytes "<a") (Some "unexpected EOF")).

(** A store holding the object of a first upload. *)
Definition oneObject : MemStore.t :=
  MemStore.mk {[ ("bucket1", "xmlobject/1") := bytes "<a/>" ]} [] None.

(** An environment with both file names set, and one without the key. *)
Definition fullEnv : gmap string string :=
  {[ "CERT_FILE" := "cert.pem"; "KEY_FILE" := "key.pem" ]}.

Definition certOnlyEnv : gmap string string :=
  {[ "CERT_FILE" := "cert.pem"; "KEY_FILE" := "" ]}.

End Examples.

(** * Properties *)

Import Go Http.

(** ** Strings, bytes and the decimal rendering of the counter *)

Lemma bytes_inj (s t : string) : bytes s = bytes t -> s = t.
Proof.
  intros E. unfold bytes in E.
  rewrite <- (string_of_list_byte_of_string s), <- (string_of_list_byte_of_string t).
  now rewrite E.
Qed.

Lemma append_inj_r (p s t : string) : p +:+ s = p +:+ t -> s = t.
Proof. induction p as [|a p IH]; simpl; [easy | intros [= E]; auto]. Qed.

(** [Z.to_int] never yields an empty digit sequence, so its rendering can
    be read back. *)
Lemma to_int_proper (n : Z) :
  Z.to_int n <> Decimal.Pos Decimal.Nil /\ Z.to_int n <> Decimal.Neg Decimal.Nil.
Proof.
  destruct n as [|p|p]; simpl; split; try discriminate;
    intros [= E]; now apply (DecimalPos.Unsigned.to_uint_nonnil p).
Qed.

(** Different counter values render differently. *)
Lemma fmt_d_inj (n m : Z) : fmt_d n = fmt_d m -> n = m.
Proof.
  unfold fmt_d. intros E.
  apply DecimalZ.to_int_inj.
  destruct (to_int_proper n) as [Hn1 Hn2], (to_int_proper m) as [Hm1 Hm2].
  pose proof (NilZero.isi _ Hn1 Hn2) as In.
  pose proof (NilZero.isi _ Hm1 Hm2) as Im.
  rewrite E in In. congruence.
Qed.

Lemma wrap64_small (z : Z) : - 2 ^ 63 <= z < 2 ^ 63 -> wrap64 z = z.
Proof. intros Hz. unfold wrap64. rewrite Z.mod_small; lia. Qed.

(** ** The response writer *)

Lemma contentTypeRejected_true (ct : string) :
  ct <> contentTypeTextXML -> ct <> contentTypeApplicationXML ->
  contentTypeRejected ct = true.
Proof.
  intros H1 H2. unfold contentTypeRejected.
  apply String.eqb_neq in H1, H2. now rewrite H1, H2.
Qed.

(** [httpWrite] on a writer nothing was written to: its status and data
    are what goes out. *)
Lemma httpWrite_fresh (w : ResponseWriter) (code : Z) (data : list byte) :
  wroteHeader w = false -> written w = [] ->
  let w' := Persisting.httpWrite w code data in
  wroteHeader w' = true /\ status w' = code /\ written w' = data
  /\ sentHeader w' = header w.
Proof.
  intros Hw Hb. unfold Persisting.httpWrite, Write, WriteHeader. rewrite Hw. simpl.
  destruct data as [|b data]; simpl; rewrite Hb; auto.
Qed.

(** [httpWrite] on a writer whose status line is out: the status stays,
    the data is appended. *)
Lemma httpWrite_superfluous (w : ResponseWriter) (code : Z) (data : list byte) :
  wroteHeader w = true ->
  let w' := Persisting.httpWrite w code data in
  wroteHeader w' = true /\ status w' = status w /\ written w' = (written w ++ data)%list.
Proof.
  intros Hw. unfold Persisting.httpWrite, Write, WriteHeader. rewrite Hw. simpl.
  destruct data as [|b data]; simpl; rewrite ?Hw, ?app_nil_r; auto.
Qed.

(** ** Method and content type on [/upload] *)

(** C4. On [/upload], a method other than POST is answered 405, and a POST
    whose Content-Type header is neither "text/xml" nor "application/xml"
    is answered 400, whatever the body; both programs agree on this. *)
Theorem upload_wrong_method_405_wrong_content_type_400
    (xml_Decode : Reader -> Validating.xmlPayload -> Validating.xmlPayload * option error)
    (S : Type) `{Persisting.BlobStore S} (xph : Persisting.xmlParseHandler S)
    (r : Request) :
  Path r = uploadPath ->
  (Method r <> MethodPost ->
     StatusCode (Validating.serve xml_Decode r) = 405
     /\ StatusCode (snd (Persisting.serve xph r)) = 405)
  /\ (Method r = MethodPost ->
      Values_Get (Header r) "Content-Type" <> "text/xml" ->
      Values_Get (Header r) "Content-Type" <> "application/xml" ->
      StatusCode (Validating.serve xml_Decode r) = 400
      /\ StatusCode (snd (Persisting.serve xph r)) = 400).
Proof.
  intros HP. split.
  - intros HM. apply String.eqb_neq in HM.
    unfold Validating.serve, Validating.ServeHTTP, Persisting.serve,
      Persisting.ServeHTTP, Persisting.handleUpload.
    rewrite HP, HM. simpl. auto.
  - intros HM H1 H2.
    pose proof (contentTypeRejected_true _ H1 H2) as HC.
    unfold Validating.serve, Validating.ServeHTTP, Persisting.serve,
      Persisting.ServeHTTP, Persisting.handleUpload.
    rewrite HP, HM, HC. simpl. auto.
Qed.

Lemma upload_wrong_method_405_wrong_content_type_400_witness :
  (StatusCode (Validating.serve Examples.decodeNonEmpty Examples.getUpload) = 405
   /\ StatusCode (snd (Persisting.serve Examples.fresh Examples.getUpload)) = 405)
  /\ (StatusCode (Validating.serve Examples.decodeNonEmpty Examples.jsonUpload) = 400
      /\ StatusCode (snd (Persisting.serve Examples.fresh Examples.jsonUpload)) = 400).
Proof.
  split.
  - apply (proj1 (upload_wrong_method_405_wrong_content_type_400
                    Examples.decodeNonEmpty MemStore.t Examples.fresh
                    Examples.getUpload eq_refl)).
    discriminate.
  - apply (proj2 (upload_wrong_method_405_wrong_content_type_400
                    Examples.decodeNonEmpty MemStore.t Examples.fresh
                    Examples.jsonUpload eq_refl)).
    + reflexivity.
    + vm_compute. discriminate.
    + vm_compute. discriminate.
Defined.

(** C9. On [/upload] the method is checked before the content type: when
    the method is not POST and the Content-Type is outside the allow-list
    as well, so that both checks would fail, the answer is 405 and not 400,
    in both programs; the persisting handler is left as it was. *)
Theorem upload_method_check_precedes_content_type
    (xml_Decode : Reader -> Validating.xmlPayload -> Validating.xmlPayload * option error)
    (S : Type) `{Persisting.BlobStore S} (xph : Persisting.xmlParseHandler S)
    (r : Request) :
  Path r = uploadPath ->
  Method r <> MethodPost ->
  contentTypeRejected (Values_Get (Header r) "Content-Type") = true ->
  Validating.serve xml_Decode r = mkResponse StatusMethodNotAllowed ∅ []
  /\ Persisting.serve xph r = (xph, mkResponse StatusMethodNotAllowed ∅ [])
  /\ StatusMethodNotAllowed <> StatusBadRequest.
Proof.
  intros HP HM _. apply String.eqb_neq in HM.
  unfold Validating.serve, Validating.ServeHTTP, Persisting.serve,
    Persisting.ServeHTTP, Persisting.handleUpload.
  rewrite HP, HM. simpl. repeat split; discriminate.
Qed.

Lemma upload_method_check_precedes_content_type_witness :
  Validating.serve Examples.decodeNonEmpty Examples.getUpload
    = mkResponse StatusMethodNotAllowed ∅ []
  /\ Persisting.serve Examples.fresh Examples.getUpload
     = (Examples.fresh, mkResponse StatusMethodNotAllowed ∅ [])
  /\ StatusMethodNotAllowed <> StatusBadRequest.
Proof.
  apply (upload_method_check_precedes_content_type
           Examples.decodeNonEmpty MemStore.t Examples.fresh Examples.getUpload).
  - reflexivity.
  - discriminate.
  - vm_compute. reflexivity.
Defined.

(** ** Paths that are not served *)

(** C8. A request to a path other than [/upload] (validating program), or
    other than [/upload] and [/read] (persisting program), is answered
    with the body "<p>Oops, you walked the wrong path</p>" and status 200,
    whatever its method; the persisting handler neither moves its counter
    nor calls the store. *)
Theorem unknown_path_fixed_body_status_200
    (xml_Decode : Reader -> Validating.xmlPayload -> Validating.xmlPayload * option error)
    (S : Type) `{Persisting.BlobStore S} (xph : Persisting.xmlParseHandler S)
    (r : Request) :
  (Path r <> "/upload" ->
     StatusCode (Validating.serve xml_Decode r) = 200
     /\ RespBody (Validating.serve xml_Decode r)
        = bytes "<p>Oops, you walked the wrong path</p>")
  /\ (Path r <> "/upload" -> Path r <> "/read" ->
      fst (Persisting.serve xph r) = xph
      /\ StatusCode (snd (Persisting.serve xph r)) = 200
      /\ RespBody (snd (Persisting.serve xph r))
         = bytes "<p>Oops, you walked the wrong path</p>").
Proof.
  split.
  - intros HU. apply String.eqb_neq in HU.
    unfold Validating.serve, Validating.ServeHTTP. fold uploadPath in HU.
    rewrite HU. simpl. auto.
  - intros HU HR. apply String.eqb_neq in HU, HR.
    unfold Persisting.serve, Persisting.ServeHTTP.
    fold uploadPath in HU. fold readFilePath in HR.
    rewrite HU, HR. simpl. auto.
Qed.

Lemma unknown_path_fixed_body_status_200_witness :
  (StatusCode (Validating.serve Examples.decodeNonEmpty Examples.putFoo) = 200
   /\ RespBody (Validating.serve Examples.decodeNonEmpty Examples.putFoo)
      = bytes "<p>Oops, you walked the wrong path</p>")
  /\ (fst (Persisting.serve Examples.fresh Examples.putFoo) = Examples.fresh
      /\ StatusCode (snd (Persisting.serve Examples.fresh Examples.putFoo)) = 200
      /\ RespBody (snd (Persisting.serve Examples.fresh Examples.putFoo))
         = bytes "<p>Oops, you walked the wrong path</p>").
Proof.
  split.
  - apply (proj1 (unknown_path_fixed_body_status_200
                    Examples.decodeNonEmpty MemStore.t Examples.fresh Examples.putFoo)).
    discriminate.
  - apply (proj2 (unknown_path_fixed_body_status_200
                    Examples.decodeNonEmpty MemStore.t Examples.fresh Examples.putFoo)).
    + discriminate.
    + discriminate.
Defined.

(** ** The read handler *)

(** C7. A GET on [/read] whose [bucket_id] parameter is absent, or whose
    first value is the empty string, is answered 400 with the body
    "bucket_id is required"; the handler comes back unchanged, so its
    record of store calls has not grown. *)
Theorem read_without_bucket_id_400
    (S : Type) `{Persisting.BlobStore S} (xph : Persisting.xmlParseHandler S)
    (r : Request) :
  Path r = "/read" ->
  Method r = "GET" ->
  (Query r !! "bucket_id" = None
   \/ exists rest, Query r !! "bucket_id" = Some ("" :: rest)) ->
  fst (Persisting.serve xph r) = xph
  /\ Persisting.calls (fst (Persisting.serve xph r)) = Persisting.calls xph
  /\ StatusCode (snd (Persisting.serve xph r)) = 400
  /\ RespBody (snd (Persisting.serve xph r)) = bytes "bucket_id is required".
Proof.
  intros HP HM HQ.
  assert (Values_Get (Query r) "bucket_id" = "") as HB.
  { unfold Values_Get. destruct HQ as [-> | [rest ->]]; reflexivity. }
  unfold Persisting.serve, Persisting.ServeHTTP, Persisting.handleRead.
  rewrite HP, HM, HB. simpl. auto.
Qed.

Lemma read_without_bucket_id_400_witness :
  fst (Persisting.serve Examples.fresh (Examples.read "")) = Examples.fresh
  /\ Persisting.calls (fst (Persisting.serve Examples.fresh (Examples.read "")))
     = Persisting.calls Examples.fresh
  /\ StatusCode (snd (Persisting.serve Examples.fresh (Examples.read ""))) = 400
  /\ RespBody (snd (Persisting.serve Examples.fresh (Examples.read "")))
     = bytes "bucket_id is required".
Proof.
  apply (read_without_bucket_id_400 MemStore.t Examples.fresh (Examples.read "")).
  - reflexivity.
  - reflexivity.
  - right. exists []. vm_compute. reflexivity.
Defined.

Lemma read_get_failure_500
    (S : Type) `{Persisting.BlobStore S} (xph : Persisting.xmlParseHandler S)
    (r : Request) (c : S) (e : error) :
  Path r = "/read" -> Method r = "GET" ->
  Values_Get (Query r) "bucket_id" <> "" ->
  Persisting.GetObject (Persisting.cli xph) "bucket1"
    (Values_Get (Query r) "bucket_id") = (c, inr e) ->
  StatusCode (snd (Persisting.serve xph r)) = 500
  /\ RespBody (snd (Persisting.serve xph r)) = bytes "failed to get object".
Proof.
  intros HP HM HB HG. apply String.eqb_neq in HB.
  unfold Persisting.serve, Persisting.ServeHTTP, Persisting.handleRead,
    Persisting.cli_GetObject.
  rewrite HP, HM, HB. simpl. rewrite HG. simpl. auto.
Qed.

(** What [handleRead] sends once the object is in hand: the bytes alone
    when the drain succeeds, and the message followed by the bytes read so
    far, under status 500, when it fails. *)
Lemma read_drained_response
    (S : Type) `{Persisting.BlobStore S} (xph : Persisting.xmlParseHandler S)
    (r : Request) (c : S) (obj : Reader) :
  Path r = "/read" -> Method r = "GET" ->
  Values_Get (Query r) "bucket_id" <> "" ->
  Persisting.GetObject (Persisting.cli xph) "bucket1"
    (Values_Get (Query r) "bucket_id") = (c, inl obj) ->
  match failure obj with
  | None =>
      StatusCode (snd (Persisting.serve xph r)) = 200
      /\ RespBody (snd (Persisting.serve xph r)) = delivered obj
  | Some _ =>
      StatusCode (snd (Persisting.serve xph r)) = 500
      /\ RespBody (snd (Persisting.serve xph r))
         = (bytes "failed to read object" ++ delivered obj)%list
  end.
Proof.
  intros HP HM HB HG. apply String.eqb_neq in HB.
  unfold Persisting.serve, Persisting.ServeHTTP, Persisting.handleRead,
    Persisting.cli_GetObject.
  rewrite HP, HM, HB. simpl. rewrite HG. simpl.
  destruct obj as [data [e|]]; simpl.
  - destruct data; simpl; rewrite ?app_nil_r; auto.
  - destruct data; simpl; auto.
Qed.

(** C6. At a read whose get succeeds and whose drain breaks after the
    bytes "<a": the status is 500, and the body is the message "failed to
    read object" with the two object bytes after it, because the error
    branch does not return and the final [httpWrite] still runs. *)
Theorem read_drain_failure_appends_object_bytes :
  StatusCode (snd (Persisting.serve (Persisting.newXMLParseHandler Examples.cutStore)
                     (Examples.read "xmlobject/1"))) = 500
  /\ RespBody (snd (Persisting.serve (Persisting.newXMLParseHandler Examples.cutStore)
                      (Examples.read "xmlobject/1")))
     = (bytes "failed to read object" ++ bytes "<a")%list
  /\ RespBody (snd (Persisting.serve (Persisting.newXMLParseHandler Examples.cutStore)
                      (Examples.read "xmlobject/1")))
     <> bytes "failed to read object".
Proof. vm_compute. repeat split; discriminate. Qed.

(** ** Uploads that reach the key generator *)

Lemma mints_inv (r : Request) :
  Persisting.mints r = true ->
  String.eqb (Path r) uploadPath = true
  /\ String.eqb (Method r) MethodPost = true
  /\ contentTypeRejected (Values_Get (Header r) "Content-Type") = false
  /\ failure (Body r) = None.
Proof.
  unfold Persisting.mints. intros E.
  apply andb_prop in E as [E E4]. apply andb_prop in E as [E E3].
  apply andb_prop in E as [E1 E2].
  repeat split; auto.
  - now apply negb_true_iff in E3.
  - now destruct (failure (Body r)).
Qed.

(** An upload that passes its checks is [composeBucketID] followed by the
    rest of [handleUpload]: the two steps of the concurrent model, run back
    to back, are the sequential handler. *)
Lemma serve_minting_upload
    (S : Type) `{Persisting.BlobStore S} (xph : Persisting.xmlParseHandler S)
    (r : Request) :
  Persisting.mints r = true ->
  Persisting.serve xph r =
    (fst (Concurrent.storeAndReply (snd (Persisting.composeBucketID xph))
            newResponseWriter (fst (Persisting.composeBucketID xph))
            (delivered (Body r))),
     finish (snd (Concurrent.storeAndReply (snd (Persisting.composeBucketID xph))
                    newResponseWriter (fst (Persisting.composeBucketID xph))
                    (delivered (Body r))))).
Proof.
  intros E. apply mints_inv in E as (E1 & E2 & E3 & E4).
  unfold Persisting.serve, Persisting.ServeHTTP, Persisting.handleUpload,
    Concurrent.storeAndReply, io_ReadAll.
  rewrite E1, E2, E3, E4. simpl.
  destruct (Persisting.cli_PutObject _ _ _ _) as [x [e|]]; reflexivity.
Qed.

(** The whole outcome of such an upload, in terms of what the put returns. *)
Lemma minting_upload_outcome
    (S : Type) `{Persisting.BlobStore S} (xph : Persisting.xmlParseHandler S)
    (r : Request) (c : S) (err : option error) :
  Persisting.mints r = true ->
  Persisting.PutObject (Persisting.cli xph) "bucket1"
    ("xmlobject/" +:+ fmt_d (Int64_Add (Persisting.reqCount xph) 1))
    (delivered (Body r)) = (c, err) ->
  Persisting.serve xph r =
    (Persisting.mkHandler c (Int64_Add (Persisting.reqCount xph) 1)
       (Persisting.calls xph
          ++ [Persisting.CallPut "bucket1"
                ("xmlobject/" +:+ fmt_d (Int64_Add (Persisting.reqCount xph) 1))
                (delivered (Body r))]),
     match err with
     | Some _ => mkResponse 500 ∅ (bytes "failed to upload object")
     | None =>
         mkResponse 200 ∅
           (bytes ("xmlobject/" +:+ fmt_d (Int64_Add (Persisting.reqCount xph) 1)))
     end).
Proof.
  intros E HPut. rewrite serve_minting_upload by exact E.
  unfold Concurrent.storeAndReply, Persisting.cli_PutObject,
    Persisting.composeBucketID.
  simpl. rewrite HPut. destruct err; reflexivity.
Qed.

Lemma serve_not_minting_reqCount
    (S : Type) `{Persisting.BlobStore S} (xph : Persisting.xmlParseHandler S)
    (r : Request) :
  Persisting.mints r = false ->
  Persisting.reqCount (fst (Persisting.serve xph r)) = Persisting.reqCount xph.
Proof.
  unfold Persisting.mints, Persisting.serve, Persisting.ServeHTTP,
    Persisting.handleUpload, Persisting.handleRead, Persisting.cli_GetObject,
    io_ReadAll.
  destruct (String.eqb (Path r) uploadPath); simpl.
  - destruct (String.eqb (Method r) MethodPost); simpl; [|reflexivity].
    destruct (contentTypeRejected _); simpl; [reflexivity|].
    destruct (failure (Body r)); simpl; [reflexivity | discriminate].
  - intros _. destruct (String.eqb (Path r) readFilePath); [|reflexivity].
    destruct (negb _); [reflexivity|].
    destruct (String.eqb _ ""); [reflexivity|].
    destruct (Persisting.GetObject _ _ _) as [c [obj|e]]; reflexivity.
Qed.

Lemma serve_minting_reqCount
    (S : Type) `{Persisting.BlobStore S} (xph : Persisting.xmlParseHandler S)
    (r : Request) :
  Persisting.mints r = true ->
  Persisting.reqCount (fst (Persisting.serve xph r))
  = Int64_Add (Persisting.reqCount xph) 1.
Proof.
  intros E.
  destruct (Persisting.PutObject (Persisting.cli xph) "bucket1"
              ("xmlobject/" +:+ fmt_d (Int64_Add (Persisting.reqCount xph) 1))
              (delivered (Body r))) as [c err] eqn:HPut.
  now rewrite (minting_upload_outcome S xph r c err E HPut).
Qed.

Lemma run_cons
    (S : Type) `{Persisting.BlobStore S} (xph : Persisting.xmlParseHandler S)
    (r : Request) (rs : list Request) :
  Persisting.run xph (r :: rs) =
    (fst (Persisting.run (fst (Persisting.serve xph r)) rs),
     snd (Persisting.serve xph r)
       :: snd (Persisting.run (fst (Persisting.serve xph r)) rs)).
Proof.
  simpl. destruct (Persisting.serve xph r) as [x resp]. simpl.
  destruct (Persisting.run x rs) as [x' resps]. reflexivity.
Qed.

(** In a sequential run the counter advances by the number of uploads that
    reached the key generator, as long as it stays below [2^63]. *)
Lemma run_reqCount
    (S : Type) `{Persisting.BlobStore S} (rs : list Request) :
  forall xph : Persisting.xmlParseHandler S,
    0 <= Persisting.reqCount xph ->
    Persisting.reqCount xph + Z.of_nat (length (List.filter Persisting.mints rs)) < 2 ^ 63 ->
    Persisting.reqCount (fst (Persisting.run xph rs))
    = Persisting.reqCount xph + Z.of_nat (length (List.filter Persisting.mints rs)).
Proof.
  induction rs as [|r rs IH]; intros xph H0 Hb.
  - simpl. lia.
  - rewrite run_cons. simpl fst. simpl List.filter in *.
    destruct (Persisting.mints r) eqn:E.
    + simpl length in *.
      pose proof (serve_minting_reqCount S xph r E) as Hc.
      unfold Int64_Add in Hc. rewrite wrap64_small in Hc by lia.
      rewrite IH; rewrite Hc; lia.
    + pose proof (serve_not_minting_reqCount S xph r E) as Hc.
      rewrite IH; rewrite Hc; lia.
Qed.

(** ** Object keys in a sequential run *)

(** With a store whose first put fails, the first upload of the run is
    answered 500 and the second 200: the first successful upload hands
    back "xmlobject/2", so it is not true of this run that the n-th key
    handed back is "xmlobject/" followed by n. *)
Lemma first_successful_upload_gets_key_2 :
  Persisting.returnedKeys
    [Examples.upload "<a/>"; Examples.upload "<b/>"]
    (snd (Persisting.run (Persisting.newXMLParseHandler Examples.firstPutFails)
            [Examples.upload "<a/>"; Examples.upload "<b/>"]))
  = [bytes "xmlobject/2"]
  /\ ~ (forall (n : nat) (key : list byte),
          Persisting.returnedKeys
            [Examples.upload "<a/>"; Examples.upload "<b/>"]
            (snd (Persisting.run (Persisting.newXMLParseHandler Examples.firstPutFails)
                    [Examples.upload "<a/>"; Examples.upload "<b/>"])) !! n
          = Some key ->
          key = bytes ("xmlobject/" +:+ fmt_d (Z.of_nat (n + 1)))).
Proof.
  split.
  - vm_compute. reflexivity.
  - intros Hall. specialize (Hall 0%nat (bytes "xmlobject/2")).
    vm_compute in Hall. specialize (Hall eq_refl). discriminate Hall.
Qed.

(** C1 (amended). In a sequential run from a new handler, let [r] be the
    n-th request to reach [composeBucketID] (an upload with method POST, an
    allowed content type and a body read without error), with n below
    [2^63].  The counter stands at n-1 before [r] and at n after it, the
    put is called with the key "xmlobject/" followed by n, whether or not
    it then succeeds, and when [r] is answered 200 the body is that key.
    The counter of a new handler is 0, so the first key is "xmlobject/1". *)
Theorem nth_minting_upload_mints_key_n
    (S : Type) `{Persisting.BlobStore S} (c : S) (rs : list Request)
    (r : Request) (n : Z) :
  n = Z.of_nat (length (List.filter Persisting.mints rs)) + 1 ->
  Persisting.mints r = true ->
  n < 2 ^ 63 ->
  Persisting.reqCount (fst (Persisting.run (Persisting.newXMLParseHandler c) rs)) = n - 1
  /\ Persisting.reqCount
       (fst (Persisting.serve
               (fst (Persisting.run (Persisting.newXMLParseHandler c) rs)) r)) = n
  /\ Persisting.calls
       (fst (Persisting.serve
               (fst (Persisting.run (Persisting.newXMLParseHandler c) rs)) r))
     = (Persisting.calls (fst (Persisting.run (Persisting.newXMLParseHandler c) rs))
        ++ [Persisting.CallPut "bucket1" ("xmlobject/" +:+ fmt_d n)
              (delivered (Body r))])%list
  /\ (StatusCode
        (snd (Persisting.serve
                (fst (Persisting.run (Persisting.newXMLParseHandler c) rs)) r)) = 200 ->
      RespBody
        (snd (Persisting.serve
                (fst (Persisting.run (Persisting.newXMLParseHandler c) rs)) r))
      = bytes ("xmlobject/" +:+ fmt_d n))
  /\ Persisting.reqCount (Persisting.newXMLParseHandler c) = 0
  /\ "xmlobject/" +:+ fmt_d 1 = "xmlobject/1".
Proof.
  intros Hn E Hb.
  assert (Persisting.reqCount (fst (Persisting.run (Persisting.newXMLParseHandler c) rs))
          = 0 + Z.of_nat (length (List.filter Persisting.mints rs))) as Hrun.
  { apply (run_reqCount S rs (Persisting.newXMLParseHandler c)); simpl; lia. }
  set (before := fst (Persisting.run (Persisting.newXMLParseHandler c) rs)) in *.
  assert (Int64_Add (Persisting.reqCount before) 1 = n) as Hadd.
  { unfold Int64_Add. rewrite wrap64_small; lia. }
  destruct (Persisting.PutObject (Persisting.cli before) "bucket1"
              ("xmlobject/" +:+ fmt_d (Int64_Add (Persisting.reqCount before) 1))
              (delivered (Body r))) as [c' err] eqn:HPut.
  rewrite (minting_upload_outcome S before r c' err E HPut). rewrite Hadd.
  simpl. repeat split; try lia; try reflexivity.
  destruct err; simpl; [discriminate | reflexivity].
Qed.

Lemma nth_minting_upload_mints_key_n_witness :
  Persisting.reqCount
    (fst (Persisting.run (Persisting.newXMLParseHandler Examples.firstPutFails)
            [Examples.upload "<a/>"])) = 2 - 1
  /\ Persisting.reqCount
       (fst (Persisting.serve
               (fst (Persisting.run (Persisting.newXMLParseHandler Examples.firstPutFails)
                       [Examples.upload "<a/>"]))
               (Examples.upload "<b/>"))) = 2
  /\ Persisting.calls
       (fst (Persisting.serve
               (fst (Persisting.run (Persisting.newXMLParseHandler Examples.firstPutFails)
                       [Examples.upload "<a/>"]))
               (Examples.upload "<b/>")))
     = (Persisting.calls
          (fst (Persisting.run (Persisting.newXMLParseHandler Examples.firstPutFails)
                  [Examples.upload "<a/>"]))
        ++ [Persisting.CallPut "bucket1" ("xmlobject/" +:+ fmt_d 2)
              (delivered (Body (Examples.upload "<b/>")))])%list
  /\ (StatusCode
        (snd (Persisting.serve
                (fst (Persisting.run (Persisting.newXMLParseHandler Examples.firstPutFails)
                        [Examples.upload "<a/>"]))
                (Examples.upload "<b/>"))) = 200 ->
      RespBody
        (snd (Persisting.serve
                (fst (Persisting.run (Persisting.newXMLParseHandler Examples.firstPutFails)
                        [Examples.upload "<a/>"]))
                (Examples.upload "<b/>")))
      = bytes ("xmlobject/" +:+ fmt_d 2))
  /\ Persisting.reqCount (Persisting.newXMLParseHandler Examples.firstPutFails) = 0
  /\ "xmlobject/" +:+ fmt_d 1 = "xmlobject/1".
Proof.
  apply (nth_minting_upload_mints_key_n MemStore.t Examples.firstPutFails
           [Examples.upload "<a/>"] (Examples.upload "<b/>") 2).
  - vm_compute. reflexivity.
  - vm_compute. reflexivity.
  - lia.
Defined.

(** ** A failed put *)

(** C10. When an upload reaches the key generator and its put fails, the
    answer is 500 with "failed to upload object", the put was attempted
    with the key of the incremented counter, and the counter keeps the
    incremented value: the number is spent.  The next upload to reach the
    generator is given the number after it.  In the run of three uploads
    on a store whose second put fails, the keys handed back are
    "xmlobject/1" and "xmlobject/3". *)
Theorem failed_put_consumes_key_number :
  (forall (S : Type) `(Persisting.BlobStore S) (xph : Persisting.xmlParseHandler S)
          (r r' : Request) (c : S) (e : error),
      Persisting.mints r = true ->
      Persisting.mints r' = true ->
      Persisting.PutObject (Persisting.cli xph) "bucket1"
        ("xmlobject/" +:+ fmt_d (Int64_Add (Persisting.reqCount xph) 1))
        (delivered (Body r)) = (c, Some e) ->
      snd (Persisting.serve xph r)
        = mkResponse 500 ∅ (bytes "failed to upload object")
      /\ Persisting.reqCount (fst (Persisting.serve xph r))
         = Int64_Add (Persisting.reqCount xph) 1
      /\ Persisting.calls (fst (Persisting.serve xph r))
         = (Persisting.calls xph
            ++ [Persisting.CallPut "bucket1"
                  ("xmlobject/" +:+ fmt_d (Int64_Add (Persisting.reqCount xph) 1))
                  (delivered (Body r))])%list
      /\ Persisting.calls (fst (Persisting.serve (fst (Persisting.serve xph r)) r'))
         = (Persisting.calls (fst (Persisting.serve xph r))
            ++ [Persisting.CallPut "bucket1"
                  ("xmlobject/"
                   +:+ fmt_d (Int64_Add (Int64_Add (Persisting.reqCount xph) 1) 1))
                  (delivered (Body r'))])%list)
  /\ Persisting.returnedKeys
       [Examples.upload "<a/>"; Examples.upload "<b/>"; Examples.upload "<c/>"]
       (snd (Persisting.run (Persisting.newXMLParseHandler Examples.secondPutFails)
               [Examples.upload "<a/>"; Examples.upload "<b/>"; Examples.upload "<c/>"]))
     = [bytes "xmlobject/1"; bytes "xmlobject/3"].
Proof.
  split.
  - intros S HS xph r r' c e E E' HPut.
    rewrite (minting_upload_outcome S xph r c (Some e) E HPut). simpl.
    repeat split.
    match goal with
    | |- context [Persisting.serve ?x r'] => set (mid := x)
    end.
    destruct (Persisting.PutObject (Persisting.cli mid) "bucket1"
                ("xmlobject/" +:+ fmt_d (Int64_Add (Persisting.reqCount mid) 1))
                (delivered (Body r'))) as [c' err] eqn:HPut'.
    rewrite (minting_upload_outcome S mid r' c' err E' HPut'). reflexivity.
  - vm_compute. reflexivity.
Qed.

Lemma failed_put_consumes_key_number_witness :
  snd (Persisting.serve (Persisting.newXMLParseHandler Examples.firstPutFails)
         (Examples.upload "<a/>"))
    = mkResponse 500 ∅ (bytes "failed to upload object")
  /\ Persisting.reqCount
       (fst (Persisting.serve (Persisting.newXMLParseHandler Examples.firstPutFails)
               (Examples.upload "<a/>")))
     = Int64_Add 0 1.
Proof.
  destruct (proj1 failed_put_consumes_key_number MemStore.t MemStore.blobStore
              (Persisting.newXMLParseHandler Examples.firstPutFails)
              (Examples.upload "<a/>") (Examples.upload "<b/>")
              (MemStore.mk ∅ [] None) "put: store unavailable")
    as (H1 & H2 & _).
  - vm_compute. reflexivity.
  - vm_compute. reflexivity.
  - vm_compute. reflexivity.
  - split; [exact H1 | exact H2].
Defined.

(** ** Upload, then read *)

Lemma upload_200_minted
    (S : Type) `{Persisting.BlobStore S} (xph : Persisting.xmlParseHandler S)
    (r : Request) :
  Path r = "/upload" ->
  StatusCode (snd (Persisting.serve xph r)) = 200 ->
  Persisting.mints r = true.
Proof.
  intros HP. unfold Persisting.mints, Persisting.serve, Persisting.ServeHTTP,
    Persisting.handleUpload, io_ReadAll.
  rewrite HP. simpl.
  destruct (String.eqb (Method r) MethodPost); simpl; [|discriminate].
  destruct (contentTypeRejected _); simpl; [discriminate|].
  destruct (failure (Body r)); simpl; [discriminate | reflexivity].
Qed.

(** The in-memory store gives back what was put, as long as its object
    streams are not cut. *)
Lemma MemStore_put_get (s c : MemStore.t) (bucket key : string) (d : list byte) :
  MemStore.readCut s = None ->
  MemStore.put s bucket key d = (c, None) ->
  snd (MemStore.get c bucket key) = inl (mkReader d None).
Proof.
  intros Hcut. unfold MemStore.put.
  destruct (MemStore.putFaults s) as [|[|] fs]; intros [= <-];
    unfold MemStore.get; simpl; rewrite lookup_insert_eq, Hcut; reflexivity.
Qed.

(** C3. Let an upload be answered 200 with body [K], on a store that
    serves back what this put stored, and let the store at the time of the
    read answer a get of [K] as it did right after the upload.  Then
    [GET /read?bucket_id=K] is answered 200 and its body is the uploaded
    byte sequence. *)
Theorem upload_then_read_returns_uploaded_bytes
    (S : Type) `{Persisting.BlobStore S}
    (xph later : Persisting.xmlParseHandler S) (r q : Request) (K : string) :
  Path r = "/upload" ->
  StatusCode (snd (Persisting.serve xph r)) = 200 ->
  RespBody (snd (Persisting.serve xph r)) = bytes K ->
  (forall (k : string) (d : list byte) (c : S),
      Persisting.PutObject (Persisting.cli xph) "bucket1" k d = (c, None) ->
      snd (Persisting.GetObject c "bucket1" k) = inl (mkReader d None)) ->
  snd (Persisting.GetObject (Persisting.cli later) "bucket1" K)
  = snd (Persisting.GetObject (Persisting.cli (fst (Persisting.serve xph r))) "bucket1" K) ->
  Path q = "/read" ->
  Method q = "GET" ->
  Values_Get (Query q) "bucket_id" = K ->
  StatusCode (snd (Persisting.serve later q)) = 200
  /\ RespBody (snd (Persisting.serve later q)) = delivered (Body r).
Proof.
  intros HP H200 HK Hlaw Hsame HPq HMq HQ.
  pose proof (upload_200_minted S xph r HP H200) as E.
  destruct (Persisting.PutObject (Persisting.cli xph) "bucket1"
              ("xmlobject/" +:+ fmt_d (Int64_Add (Persisting.reqCount xph) 1))
              (delivered (Body r))) as [c err] eqn:HPut.
  rewrite (minting_upload_outcome S xph r c err E HPut) in H200, HK, Hsame.
  destruct err as [e|]; simpl in H200, HK, Hsame; [discriminate H200 |].
  apply bytes_inj in HK. subst K.
  rewrite (Hlaw _ _ _ HPut) in Hsame.
  destruct (Persisting.GetObject (Persisting.cli later) "bucket1"
              ("xmlobject/" +:+ fmt_d (Int64_Add (Persisting.reqCount xph) 1)))
    as [c' res] eqn:HGet.
  simpl in Hsame. subst res.
  rewrite <- HQ in HGet.
  assert (Values_Get (Query q) "bucket_id" <> "") as HB.
  { rewrite HQ. discriminate. }
  exact (read_drained_response S later q c' (mkReader (delivered (Body r)) None)
           HPq HMq HB HGet).
Qed.

Lemma upload_then_read_returns_uploaded_bytes_witness :
  StatusCode
    (snd (Persisting.serve (fst (Persisting.serve Examples.fresh (Examples.upload "<a/>")))
            (Examples.read "xmlobject/1"))) = 200
  /\ RespBody
       (snd (Persisting.serve (fst (Persisting.serve Examples.fresh (Examples.upload "<a/>")))
               (Examples.read "xmlobject/1")))
     = delivered (Body (Examples.upload "<a/>")).
Proof.
  apply (upload_then_read_returns_uploaded_bytes MemStore.t Examples.fresh
           (fst (Persisting.serve Examples.fresh (Examples.upload "<a/>")))
           (Examples.upload "<a/>") (Examples.read "xmlobject/1") "xmlobject/1").
  - reflexivity.
  - vm_compute. reflexivity.
  - vm_compute. reflexivity.
  - intros k d c. apply MemStore_put_get. reflexivity.
  - reflexivity.
  - reflexivity.
  - reflexivity.
  - vm_compute. reflexivity.
Defined.

(** ** Concurrent uploads *)

Lemma holders_insert (p : list Concurrent.Goroutine) (i : nat)
    (g g' : Concurrent.Goroutine) :
  p !! i = Some g ->
  (Concurrent.holders (<[i := g']> p) + Concurrent.holds g
   = Concurrent.holders p + Concurrent.holds g')%nat.
Proof.
  unfold Concurrent.holders. revert i.
  induction p as [|x p IH]; intros [|i] Hi; simpl in *; try discriminate.
  - injection Hi as ->. lia.
  - specialize (IH i Hi). unfold fmap in IH. lia.
Qed.

Lemma holders_le_length (p : list Concurrent.Goroutine) :
  (Concurrent.holders p <= length p)%nat.
Proof.
  unfold Concurrent.holders.
  induction p as [|x p IH]; simpl; [lia|].
  unfold fmap in IH.
  unfold Concurrent.holds at 1. destruct (Concurrent.keyOf x); lia.
Qed.

Lemma storeAndReply_outcome
    (S : Type) `{Persisting.BlobStore S} (xph : Persisting.xmlParseHandler S)
    (k : string) (raw : list byte) :
  Persisting.reqCount (fst (Concurrent.storeAndReply xph newResponseWriter
                              ("xmlobject/" +:+ k) raw))
  = Persisting.reqCount xph
  /\ (finish (snd (Concurrent.storeAndReply xph newResponseWriter
                     ("xmlobject/" +:+ k) raw))
      = mkResponse StatusOK ∅ (bytes ("xmlobject/" +:+ k))
      \/ finish (snd (Concurrent.storeAndReply xph newResponseWriter
                        ("xmlobject/" +:+ k) raw))
         = mkResponse StatusInternalServerError ∅ (bytes "failed to upload object")).
Proof.
  unfold Concurrent.storeAndReply, Persisting.cli_PutObject.
  destruct (Persisting.PutObject _ _ _ _) as [c [e|]]; simpl; auto.
Qed.

Lemma spawn_consistent
    (S : Type) `{Persisting.BlobStore S} (c : S) (rs : list Request) :
  Concurrent.consistent (Concurrent.spawn (Persisting.newXMLParseHandler c) rs).
Proof.
  split; simpl.
  - unfold Concurrent.holders. induction rs; simpl; auto.
  - reflexivity.
  - intros a i n Ha. rewrite lookup_nil in Ha. discriminate.
  - intros i g k Hi Hk. rewrite list_lookup_fmap in Hi.
    destruct (rs !! i); simpl in Hi; [|discriminate].
    injection Hi as <-. discriminate.
  - intros i k resp Hi. rewrite list_lookup_fmap in Hi.
    destruct (rs !! i); simpl in Hi; discriminate.
Qed.

(** Looks a goroutine up in a pool updated at [i], at [i] or elsewhere. *)
Ltac pool_lookup i j Hi Hj :=
  destruct (decide (i = j)) as [<-|Hne];
  [ rewrite list_lookup_insert_eq in Hj by (eapply lookup_lt_Some, Hi);
    apply (inj Some) in Hj
  | rewrite list_lookup_insert_ne in Hj by exact Hne ].

Lemma step_consistent
    (S : Type) `{Persisting.BlobStore S} (sys : Concurrent.System S) (i : nat) :
  Z.of_nat (length (Concurrent.pool sys)) < 2 ^ 63 ->
  Concurrent.consistent sys ->
  Concurrent.consistent (Concurrent.step i sys)
  /\ length (Concurrent.pool (Concurrent.step i sys)) = length (Concurrent.pool sys).
Proof.
  intros Hb Hc. pose proof Hc as [Hc1 Hc2 Hc3 Hc4 Hc5]. unfold Concurrent.step.
  destruct (Concurrent.pool sys !! i) as [[r|k raw|ok resp]|] eqn:Hi; [ | |auto..].
  - destruct (Persisting.mints r) eqn:E.
    + unfold Persisting.composeBucketID. simpl.
      pose proof (holders_insert _ i _
                    (Concurrent.Minted
                       ("xmlobject/"
                        +:+ fmt_d (Int64_Add (Persisting.reqCount (Concurrent.shared sys)) 1))
                       (delivered (Body r))) Hi) as Hins.
      pose proof (holders_le_length
                    (<[i := Concurrent.Minted
                              ("xmlobject/"
                               +:+ fmt_d (Int64_Add
                                            (Persisting.reqCount (Concurrent.shared sys)) 1))
                              (delivered (Body r))]> (Concurrent.pool sys))) as Hle.
      rewrite length_insert in Hle. unfold Concurrent.holds in Hins. simpl in Hins.
      assert (Int64_Add (Persisting.reqCount (Concurrent.shared sys)) 1
              = Z.of_nat (length (Concurrent.history sys)) + 1) as Hadd.
      { unfold Int64_Add. rewrite wrap64_small; lia. }
      split; [split; simpl|simpl; apply length_insert].
      * rewrite length_app. simpl. lia.
      * rewrite length_app. simpl. lia.
      * intros a j n Ha.
        destruct (decide (a < length (Concurrent.history sys))%nat) as [Hlt|Hge].
        -- rewrite lookup_app_l in Ha by exact Hlt. eauto.
        -- rewrite lookup_app_r in Ha by lia.
           destruct (a - length (Concurrent.history sys))%nat as [|d] eqn:Hd;
             simpl in Ha; [|discriminate].
           injection Ha as _ <-. lia.
      * intros j g k Hj Hk. pool_lookup i j Hi Hj.
        -- subst g. simpl in Hk. injection Hk as <-.
           eexists. split; [|reflexivity].
           apply elem_of_app. right. apply list_elem_of_singleton. reflexivity.
        -- destruct (Hc4 j g k Hj Hk) as (n & Hin & Hkey).
           exists n. split; [apply elem_of_app; now left | exact Hkey].
      * intros j k resp Hj. pool_lookup i j Hi Hj; [discriminate Hj | eauto].
    + destruct (Persisting.serve (Concurrent.shared sys) r) as [x resp] eqn:Hs.
      pose proof (serve_not_minting_reqCount S (Concurrent.shared sys) r E) as Hrc.
      rewrite Hs in Hrc. simpl in Hrc.
      pose proof (holders_insert _ i _ (Concurrent.Replied None resp) Hi) as Hins.
      unfold Concurrent.holds in Hins. simpl in Hins.
      split; [split; simpl|simpl; apply length_insert].
      * lia.
      * lia.
      * exact Hc3.
      * intros j g k Hj Hk. pool_lookup i j Hi Hj.
        -- subst g. discriminate Hk.
        -- eauto.
      * intros j k resp' Hj. pool_lookup i j Hi Hj; [discriminate Hj | eauto].
  - destruct (Hc4 i _ k Hi eq_refl) as (n & Hin & Hkey).
    destruct (storeAndReply_outcome S (Concurrent.shared sys) (fmt_d n) raw)
      as [Hrc Hresp].
    rewrite <- Hkey in Hrc, Hresp.
    destruct (Concurrent.storeAndReply (Concurrent.shared sys) newResponseWriter k raw)
      as [x w] eqn:Hs.
    simpl in Hrc, Hresp.
    pose proof (holders_insert _ i _ (Concurrent.Replied (Some k) (finish w)) Hi) as Hins.
    unfold Concurrent.holds in Hins. simpl in Hins.
    split; [split; simpl|simpl; apply length_insert].
    + lia.
    + lia.
    + exact Hc3.
    + intros j g k' Hj Hk. pool_lookup i j Hi Hj.
      * subst g. simpl in Hk. injection Hk as <-. eauto.
      * eauto.
    + intros j k' resp' Hj. pool_lookup i j Hi Hj.
      * injection Hj as <- <-. exact Hresp.
      * eauto.
Qed.

Lemma exec_consistent
    (S : Type) `{Persisting.BlobStore S} (sched : list nat) :
  forall sys : Concurrent.System S,
    Z.of_nat (length (Concurrent.pool sys)) < 2 ^ 63 ->
    Concurrent.consistent sys ->
    Concurrent.consistent (Concurrent.exec sched sys).
Proof.
  unfold Concurrent.exec.
  induction sched as [|i sched IH]; intros sys Hb Hc; simpl; [exact Hc|].
  destruct (step_consistent S sys i Hb Hc) as [Hc' Hlen].
  apply IH; [rewrite Hlen; exact Hb | exact Hc'].
Qed.

Lemma returnedKey_inv (g : Concurrent.Goroutine) (k : string) :
  Concurrent.returnedKey g = Some k ->
  exists resp, g = Concurrent.Replied (Some k) resp /\ StatusCode resp = StatusOK.
Proof.
  destruct g as [r|k' raw|[k'|] resp]; simpl; try discriminate.
  destruct (Z.eqb_spec (StatusCode resp) StatusOK); [|discriminate].
  intros [= <-]. eauto.
Qed.

(** C2. Goroutines serve any number of requests below [2^63] against one
    new handler, their steps interleaved by an arbitrary schedule.  Then
    the increments of the counter returned 1, 2, 3, ... in the order in
    which they happened, so that the numbers are strictly increasing in
    minting order with none lost and none repeated; an upload that handed a
    key back replied 200 with the key rendering a number it received
    itself; and two different uploads never handed back the same key. *)
Theorem concurrent_uploads_keys_distinct_and_increasing
    (S : Type) `{Persisting.BlobStore S} (c : S) (rs : list Request)
    (sched : list nat) :
  Z.of_nat (length rs) < 2 ^ 63 ->
  let sys := Concurrent.exec sched (Concurrent.spawn (Persisting.newXMLParseHandler c) rs) in
  (forall (a i : nat) (n : Z),
      Concurrent.history sys !! a = Some (i, n) -> n = Z.of_nat a + 1)
  /\ (forall (a b i j : nat) (n m : Z),
        (a < b)%nat ->
        Concurrent.history sys !! a = Some (i, n) ->
        Concurrent.history sys !! b = Some (j, m) ->
        n < m)
  /\ (forall (i : nat) (g : Concurrent.Goroutine) (k : string),
        Concurrent.pool sys !! i = Some g ->
        Concurrent.returnedKey g = Some k ->
        g = Concurrent.Replied (Some k) (mkResponse 200 ∅ (bytes k))
        /\ exists n : Z, (i, n) ∈ Concurrent.history sys /\ k = "xmlobject/" +:+ fmt_d n)
  /\ (forall (i j : nat) (gi gj : Concurrent.Goroutine) (ki kj : string),
        i <> j ->
        Concurrent.pool sys !! i = Some gi ->
        Concurrent.pool sys !! j = Some gj ->
        Concurrent.returnedKey gi = Some ki ->
        Concurrent.returnedKey gj = Some kj ->
        ki <> kj).
Proof.
  intros Hb sys.
  assert (Concurrent.consistent sys) as [_ _ Hnum Hkeys Hrep].
  { apply exec_consistent; [|apply spawn_consistent; assumption].
    simpl. rewrite length_fmap. exact Hb. }
  split; [exact Hnum|]. split; [|split].
  - intros a b i j n m Hab Ha Hb'.
    rewrite (Hnum a i n Ha), (Hnum b j m Hb'). lia.
  - intros i g k Hi Hk.
    destruct (returnedKey_inv g k Hk) as (resp & -> & H200).
    split; [|exact (Hkeys i _ k Hi eq_refl)].
    destruct (Hrep i k resp Hi) as [-> | ->]; [reflexivity | discriminate H200].
  - intros i j gi gj ki kj Hij Hi Hj Hki Hkj Heq.
    destruct (returnedKey_inv gi ki Hki) as (ri & -> & _).
    destruct (returnedKey_inv gj kj Hkj) as (rj & -> & _).
    destruct (Hkeys i _ ki Hi eq_refl) as (n & Hn & Ekn).
    destruct (Hkeys j _ kj Hj eq_refl) as (m & Hm & Ekm).
    assert (n = m) as <-.
    { apply fmt_d_inj, (append_inj_r "xmlobject/"). congruence. }
    apply list_elem_of_lookup in Hn as [a Ha], Hm as [b Hb'].
    pose proof (Hnum a i n Ha) as Na. pose proof (Hnum b j n Hb') as Nb.
    assert (a = b) as <- by lia.
    rewrite Ha in Hb'. injection Hb' as Hi'. contradiction.
Qed.

Lemma concurrent_uploads_keys_distinct_and_increasing_witness :
  Concurrent.history
    (Concurrent.exec [1; 0; 0; 1]%nat
       (Concurrent.spawn Examples.fresh [Examples.upload "<a/>"; Examples.upload "<b/>"]))
  = [(1%nat, 1); (0%nat, 2)]
  /\ (forall (i j : nat) (gi gj : Concurrent.Goroutine) (ki kj : string),
        i <> j ->
        Concurrent.pool
          (Concurrent.exec [1; 0; 0; 1]%nat
             (Concurrent.spawn Examples.fresh
                [Examples.upload "<a/>"; Examples.upload "<b/>"])) !! i = Some gi ->
        Concurrent.pool
          (Concurrent.exec [1; 0; 0; 1]%nat
             (Concurrent.spawn Examples.fresh
                [Examples.upload "<a/>"; Examples.upload "<b/>"])) !! j = Some gj ->
        Concurrent.returnedKey gi = Some ki ->
        Concurrent.returnedKey gj = Some kj ->
        ki <> kj).
Proof.
  split.
  - vm_compute. reflexivity.
  - apply (concurrent_uploads_keys_distinct_and_increasing MemStore.t MemStore.empty
             [Examples.upload "<a/>"; Examples.upload "<b/>"] [1; 0; 0; 1]%nat).
    vm_compute. reflexivity.
Defined.

(** A goroutine left alone takes the handler and the client where the
    sequential handler takes them: its steps, run back to back, are
    [serve]. *)
Lemma goroutine_alone_is_serve
    (S : Type) `{Persisting.BlobStore S} (sys : Concurrent.System S) (i : nat)
    (r : Request) :
  Concurrent.pool sys !! i = Some (Concurrent.Pending r) ->
  Concurrent.shared (Concurrent.step i (Concurrent.step i sys))
  = fst (Persisting.serve (Concurrent.shared sys) r)
  /\ exists k,
      Concurrent.pool (Concurrent.step i (Concurrent.step i sys)) !! i
      = Some (Concurrent.Replied k (snd (Persisting.serve (Concurrent.shared sys) r))).
Proof.
  intros Hi. pose proof (lookup_lt_Some _ _ _ Hi) as Hlt.
  destruct (Persisting.mints r) eqn:E.
  - assert (Concurrent.step i sys
            = Concurrent.mkSystem
                (snd (Persisting.composeBucketID (Concurrent.shared sys)))
                (<[i := Concurrent.Minted
                          (fst (Persisting.composeBucketID (Concurrent.shared sys)))
                          (delivered (Body r))]> (Concurrent.pool sys))
                (Concurrent.history sys
                 ++ [(i, Persisting.reqCount
                           (snd (Persisting.composeBucketID (Concurrent.shared sys))))]))
      as ->.
    { unfold Concurrent.step. rewrite Hi, E. reflexivity. }
    rewrite (serve_minting_upload S (Concurrent.shared sys) r E).
    unfold Concurrent.step. cbn [Concurrent.pool Concurrent.shared Concurrent.history].
    rewrite list_lookup_insert_eq by exact Hlt.
    destruct (Concurrent.storeAndReply _ newResponseWriter _ (delivered (Body r)))
      as [x' w] eqn:Hs.
    cbn [Concurrent.pool Concurrent.shared fst snd]. split; [reflexivity|].
    eexists. rewrite list_insert_insert_eq.
    apply list_lookup_insert_eq. exact Hlt.
  - assert (Concurrent.step i sys
            = Concurrent.mkSystem
                (fst (Persisting.serve (Concurrent.shared sys) r))
                (<[i := Concurrent.Replied None
                          (snd (Persisting.serve (Concurrent.shared sys) r))]>
                   (Concurrent.pool sys))
                (Concurrent.history sys)) as ->.
    { unfold Concurrent.step. rewrite Hi, E.
      destruct (Persisting.serve (Concurrent.shared sys) r). reflexivity. }
    unfold Concurrent.step. cbn [Concurrent.pool Concurrent.shared Concurrent.history].
    rewrite list_lookup_insert_eq by exact Hlt.
    split; [reflexivity|].
    eexists. apply list_lookup_insert_eq. exact Hlt.
Qed.

(** ** Runs without a store failure *)

Lemma returnedKeys_cons (r : Request) (resp : Response) (rs : list Request)
    (resps : list Response) :
  Persisting.returnedKeys (r :: rs) (resp :: resps)
  = ((if String.eqb (Path r) uploadPath && (StatusCode resp =? StatusOK)%Z
      then [RespBody resp] else []) ++ Persisting.returnedKeys rs resps)%list.
Proof.
  unfold Persisting.returnedKeys. simpl.
  destruct (String.eqb (Path r) uploadPath && (StatusCode resp =? StatusOK)%Z);
    reflexivity.
Qed.

(** X14. When every upload that reaches the key generator is answered
    200, the keys handed back are the consecutive numbers after the
    counter's starting value: from a new handler, the n-th successful
    upload is given "xmlobject/" followed by n. *)
Lemma returnedKeys_without_store_failure
    (S : Type) `{Persisting.BlobStore S} (rs : list Request) :
  forall xph : Persisting.xmlParseHandler S,
    0 <= Persisting.reqCount xph ->
    Persisting.reqCount xph + Z.of_nat (length (List.filter Persisting.mints rs)) < 2 ^ 63 ->
    (forall (i : nat) (r : Request) (resp : Response),
        rs !! i = Some r -> snd (Persisting.run xph rs) !! i = Some resp ->
        Persisting.mints r = true -> StatusCode resp = 200) ->
    Persisting.returnedKeys rs (snd (Persisting.run xph rs))
    = (fun i : nat => bytes ("xmlobject/" +:+ fmt_d (Persisting.reqCount xph + Z.of_nat i)))
        <$> seq 1 (length (List.filter Persisting.mints rs)).
Proof.
  induction rs as [|r rs IH]; intros xph H0 Hb Hok; [reflexivity|].
  rewrite run_cons in *. simpl snd in *. rewrite returnedKeys_cons.
  simpl List.filter in *.
  assert (forall (i : nat) (r' : Request) (resp : Response),
             rs !! i = Some r' ->
             snd (Persisting.run (fst (Persisting.serve xph r)) rs) !! i = Some resp ->
             Persisting.mints r' = true -> StatusCode resp = 200) as Hok'.
  { intros i r' resp Hi Hr. exact (Hok (Datatypes.S i) r' resp Hi Hr). }
  destruct (Persisting.mints r) eqn:E.
  - pose proof (Hok 0%nat r _ eq_refl eq_refl E) as H200.
    pose proof (serve_minting_reqCount S xph r E) as Hrc.
    unfold Int64_Add in Hrc. simpl length in Hb. rewrite wrap64_small in Hrc by lia.
    assert (RespBody (snd (Persisting.serve xph r))
            = bytes ("xmlobject/" +:+ fmt_d (Persisting.reqCount xph + 1))) as Hbody.
    { destruct (Persisting.PutObject (Persisting.cli xph) "bucket1"
                  ("xmlobject/" +:+ fmt_d (Int64_Add (Persisting.reqCount xph) 1))
                  (delivered (Body r))) as [c err] eqn:HPut.
      rewrite (minting_upload_outcome S xph r c err E HPut) in H200 |- *.
      destruct err as [e|]; simpl in H200; [discriminate H200|].
      simpl. unfold Int64_Add. now rewrite wrap64_small by lia. }
    apply mints_inv in E as (E1 & _). rewrite E1, H200, Hbody.
    change (true && (200 =? StatusOK)%Z) with true. cbv iota.
    rewrite IH by (rewrite ?Hrc; auto; lia).
    rewrite Hrc.
    simpl length. rewrite <- cons_seq, fmap_cons. simpl app. f_equal.
    rewrite <- (fmap_S_seq 1), <- list_fmap_compose.
    apply list_fmap_ext. intros _ x _. simpl. do 3 f_equal. lia.
  - pose proof (serve_not_minting_reqCount S xph r E) as Hrc.
    assert (String.eqb (Path r) uploadPath
            && (StatusCode (snd (Persisting.serve xph r)) =? StatusOK)%Z = false) as ->.
    { destruct (String.eqb_spec (Path r) uploadPath) as [HP|]; [|reflexivity].
      destruct (Z.eqb_spec (StatusCode (snd (Persisting.serve xph r))) StatusOK)
        as [H200|]; [|reflexivity].
      rewrite (upload_200_minted S xph r HP H200) in E. discriminate E. }
    simpl. rewrite IH by (rewrite ?Hrc; auto; lia). now rewrite Hrc.
Qed.

(** * Further properties of the handlers *)

(** ** The read handler beyond its key check *)

(** X1. A request on [/read] with a method other than GET is answered 405
    with an empty body, before the Content-Type header is set and before
    the query is looked at; the handler is unchanged. *)
Theorem read_wrong_method_405
    (S : Type) `{Persisting.BlobStore S} (xph : Persisting.xmlParseHandler S)
    (r : Request) :
  Path r = "/read" ->
  Method r <> "GET" ->
  Persisting.serve xph r = (xph, mkResponse 405 ∅ []).
Proof.
  intros HP HM. apply String.eqb_neq in HM.
  unfold Persisting.serve, Persisting.ServeHTTP, Persisting.handleRead.
  rewrite HP. fold MethodGet in HM. simpl. unfold MethodGet in *. rewrite HM.
  reflexivity.
Qed.

Lemma read_wrong_method_405_witness :
  Persisting.serve Examples.fresh Examples.postRead
  = (Examples.fresh, mkResponse 405 ∅ []).
Proof.
  apply (read_wrong_method_405 MemStore.t Examples.fresh Examples.postRead).
  - reflexivity.
  - discriminate.
Defined.

(** X2. Every answer to a GET on [/read] carries the header
    [Content-Type: application/xml] set by the handler: the 400 for a
    missing key and the 500s of a failed retrieval as much as the 200. *)
Theorem read_get_always_declares_xml
    (S : Type) `{Persisting.BlobStore S} (xph : Persisting.xmlParseHandler S)
    (r : Request) :
  Path r = "/read" ->
  Method r = "GET" ->
  RespHeader (snd (Persisting.serve xph r)) !! "Content-Type"
  = Some ["application/xml"].
Proof.
  intros HP HM.
  unfold Persisting.serve, Persisting.ServeHTTP, Persisting.handleRead,
    Persisting.cli_GetObject, io_ReadAll.
  rewrite HP, HM. simpl.
  destruct (String.eqb (Values_Get (Query r) "bucket_id") ""); [reflexivity|].
  destruct (Persisting.GetObject _ _ _) as [c [[data [e|]]|e]]; simpl;
    try reflexivity; destruct data; reflexivity.
Qed.

Lemma read_get_always_declares_xml_witness :
  RespHeader (snd (Persisting.serve Examples.fresh (Examples.read "nothing-here")))
    !! "Content-Type"
  = Some ["application/xml"].
Proof.
  apply (read_get_always_declares_xml MemStore.t Examples.fresh
           (Examples.read "nothing-here")).
  - reflexivity.
  - reflexivity.
Defined.

(** X3. When the get of a read returns an error, the answer is 500 with the
    body "failed to get object", whatever the error was. *)
Theorem read_get_failure_is_500
    (S : Type) `{Persisting.BlobStore S} (xph : Persisting.xmlParseHandler S)
    (r : Request) (c : S) (e : error) :
  Path r = "/read" ->
  Method r = "GET" ->
  Values_Get (Query r) "bucket_id" <> "" ->
  Persisting.GetObject (Persisting.cli xph) "bucket1"
    (Values_Get (Query r) "bucket_id") = (c, inr e) ->
  StatusCode (snd (Persisting.serve xph r)) = 500
  /\ RespBody (snd (Persisting.serve xph r)) = bytes "failed to get object"
  /\ Persisting.reqCount (fst (Persisting.serve xph r)) = Persisting.reqCount xph.
Proof.
  intros HP HM HB HG.
  destruct (read_get_failure_500 S xph r c e HP HM HB HG) as [H1 H2].
  repeat split; [exact H1 | exact H2 |].
  apply serve_not_minting_reqCount. unfold Persisting.mints. rewrite HP. reflexivity.
Qed.

Lemma read_get_failure_is_500_witness :
  StatusCode (snd (Persisting.serve Examples.fresh (Examples.read "does-not-exist"))) = 500
  /\ RespBody (snd (Persisting.serve Examples.fresh (Examples.read "does-not-exist")))
     = bytes "failed to get object"
  /\ Persisting.reqCount (fst (Persisting.serve Examples.fresh (Examples.read "does-not-exist")))
     = Persisting.reqCount Examples.fresh.
Proof.
  apply (read_get_failure_is_500 MemStore.t Examples.fresh
           (Examples.read "does-not-exist") MemStore.empty "get: no such key").
  - reflexivity.
  - reflexivity.
  - vm_compute. discriminate.
  - vm_compute. reflexivity.
Defined.

(** X4. When the get of a read returns an object that drains without
    error, the answer is 200 and the body is the object, byte for byte,
    whatever the bytes are: nothing checks that they are XML, and an empty
    object gives an empty body. *)
Theorem read_success_returns_object_bytes
    (S : Type) `{Persisting.BlobStore S} (xph : Persisting.xmlParseHandler S)
    (r : Request) (c : S) (data : list byte) :
  Path r = "/read" ->
  Method r = "GET" ->
  Values_Get (Query r) "bucket_id" <> "" ->
  Persisting.GetObject (Persisting.cli xph) "bucket1"
    (Values_Get (Query r) "bucket_id") = (c, inl (mkReader data None)) ->
  StatusCode (snd (Persisting.serve xph r)) = 200
  /\ RespBody (snd (Persisting.serve xph r)) = data
  /\ Persisting.calls (fst (Persisting.serve xph r))
     = (Persisting.calls xph
        ++ [Persisting.CallGet "bucket1" (Values_Get (Query r) "bucket_id")])%list.
Proof.
  intros HP HM HB HG.
  destruct (read_drained_response S xph r c (mkReader data None) HP HM HB HG)
    as [H1 H2].
  repeat split; [exact H1 | exact H2 |].
  apply String.eqb_neq in HB.
  unfold Persisting.serve, Persisting.ServeHTTP, Persisting.handleRead,
    Persisting.cli_GetObject.
  rewrite HP, HM, HB. simpl. rewrite HG. reflexivity.
Qed.

Lemma read_success_returns_object_bytes_witness :
  StatusCode (snd (Persisting.serve (Persisting.newXMLParseHandler Examples.oneObject)
                     (Examples.read "xmlobject/1"))) = 200
  /\ RespBody (snd (Persisting.serve (Persisting.newXMLParseHandler Examples.oneObject)
                      (Examples.read "xmlobject/1"))) = bytes "<a/>"
  /\ Persisting.calls
       (fst (Persisting.serve (Persisting.newXMLParseHandler Examples.oneObject)
               (Examples.read "xmlobject/1")))
     = (Persisting.calls (Persisting.newXMLParseHandler Examples.oneObject)
        ++ [Persisting.CallGet "bucket1"
              (Values_Get (Query (Examples.read "xmlobject/1")) "bucket_id")])%list.
Proof.
  apply (read_success_returns_object_bytes MemStore.t
           (Persisting.newXMLParseHandler Examples.oneObject)
           (Examples.read "xmlobject/1") Examples.oneObject (bytes "<a/>")).
  - reflexivity.
  - reflexivity.
  - vm_compute. discriminate.
  - vm_compute. reflexivity.
Defined.

(** ** The upload handlers before the key generator *)

(** X5. When reading the body of an otherwise acceptable upload fails, the
    persisting handler answers 500 with "failed to read content from body"
    and stops there: the counter has not moved, no key was minted and the
    store was not called, whatever part of the body had arrived. *)
Theorem upload_body_read_failure_500
    (S : Type) `{Persisting.BlobStore S} (xph : Persisting.xmlParseHandler S)
    (r : Request) (e : error) :
  Path r = "/upload" ->
  Method r = "POST" ->
  (Values_Get (Header r) "Content-Type" = "text/xml"
   \/ Values_Get (Header r) "Content-Type" = "application/xml") ->
  failure (Body r) = Some e ->
  Persisting.serve xph r
  = (xph, mkResponse 500 ∅ (bytes "failed to read content from body")).
Proof.
  intros HP HM HC HF.
  assert (contentTypeRejected (Values_Get (Header r) "Content-Type") = false) as HR.
  { destruct HC as [-> | ->]; reflexivity. }
  unfold Persisting.serve, Persisting.ServeHTTP, Persisting.handleUpload, io_ReadAll.
  rewrite HP, HM, HR, HF. reflexivity.
Qed.

Lemma upload_body_read_failure_500_witness :
  Persisting.serve Examples.fresh Examples.brokenUpload
  = (Examples.fresh, mkResponse 500 ∅ (bytes "failed to read content from body")).
Proof.
  apply (upload_body_read_failure_500 MemStore.t Examples.fresh
           Examples.brokenUpload "unexpected EOF").
  - reflexivity.
  - reflexivity.
  - right. vm_compute. reflexivity.
  - reflexivity.
Defined.

(** X6. A POST on [/upload] that has no Content-Type header at all (or an
    empty list of values for it) is answered 400 with an empty body by both
    programs; the decoder is not consulted and the persisting handler is
    unchanged. *)
Theorem upload_without_content_type_400
    (xml_Decode : Reader -> Validating.xmlPayload -> Validating.xmlPayload * option error)
    (S : Type) `{Persisting.BlobStore S} (xph : Persisting.xmlParseHandler S)
    (r : Request) :
  Path r = "/upload" ->
  Method r = "POST" ->
  (Header r !! "Content-Type" = None \/ Header r !! "Content-Type" = Some []) ->
  Validating.serve xml_Decode r = mkResponse 400 ∅ []
  /\ Persisting.serve xph r = (xph, mkResponse 400 ∅ []).
Proof.
  intros HP HM HH.
  assert (Values_Get (Header r) "Content-Type" = "") as HV.
  { unfold Values_Get. destruct HH as [-> | ->]; reflexivity. }
  unfold Validating.serve, Validating.ServeHTTP, Persisting.serve,
    Persisting.ServeHTTP, Persisting.handleUpload.
  rewrite HP, HM, HV. split; reflexivity.
Qed.

Lemma upload_without_content_type_400_witness :
  Validating.serve Examples.decodeNonEmpty Examples.bareUpload = mkResponse 400 ∅ []
  /\ Persisting.serve Examples.fresh Examples.bareUpload
     = (Examples.fresh, mkResponse 400 ∅ []).
Proof.
  apply (upload_without_content_type_400 Examples.decodeNonEmpty MemStore.t
           Examples.fresh Examples.bareUpload).
  - reflexivity.
  - reflexivity.
  - left. vm_compute. reflexivity.
Defined.

(** X7. The validating program has four answers in all: the not-found
    page under status 200, or an empty body under 200, 400 or 405.  No
    request and no decoder makes it send anything else. *)
Theorem validating_answers_are_four
    (xml_Decode : Reader -> Validating.xmlPayload -> Validating.xmlPayload * option error)
    (r : Request) :
  Validating.serve xml_Decode r
    = mkResponse 200 ∅ (bytes "<p>Oops, you walked the wrong path</p>")
  \/ Validating.serve xml_Decode r = mkResponse 200 ∅ []
  \/ Validating.serve xml_Decode r = mkResponse 400 ∅ []
  \/ Validating.serve xml_Decode r = mkResponse 405 ∅ [].
Proof.
  unfold Validating.serve, Validating.ServeHTTP, Validating.handleUpload.
  destruct (String.eqb (Path r) uploadPath); simpl; [|now left].
  destruct (String.eqb (Method r) MethodPost); simpl; [|now right; right; right].
  destruct (contentTypeRejected _); [now right; right; left|].
  destruct (snd (xml_Decode (Body r) Validating.zeroPayload));
    [now right; right; left | now right; left].
Qed.

(** X8. The persisting program answers every request with status 200, 400,
    405 or 500, on any store. *)
Theorem persisting_status_is_one_of_four
    (S : Type) `{Persisting.BlobStore S} (xph : Persisting.xmlParseHandler S)
    (r : Request) :
  StatusCode (snd (Persisting.serve xph r)) = 200
  \/ StatusCode (snd (Persisting.serve xph r)) = 400
  \/ StatusCode (snd (Persisting.serve xph r)) = 405
  \/ StatusCode (snd (Persisting.serve xph r)) = 500.
Proof.
  unfold Persisting.serve, Persisting.ServeHTTP, Persisting.handleUpload,
    Persisting.handleRead, Persisting.cli_PutObject, Persisting.cli_GetObject,
    Persisting.composeBucketID, io_ReadAll.
  destruct (String.eqb (Path r) uploadPath).
  - destruct (String.eqb (Method r) MethodPost); simpl; [|now right; right; left].
    destruct (contentTypeRejected _); simpl; [now right; left|].
    destruct (failure (Body r)); simpl; [now right; right; right|].
    destruct (Persisting.PutObject _ _ _ _) as [c [e|]]; simpl;
      [now right; right; right | now left].
  - destruct (String.eqb (Path r) readFilePath); [|now left].
    destruct (String.eqb (Method r) MethodGet); simpl; [|now right; right; left].
    destruct (String.eqb _ ""); simpl; [now right; left|].
    destruct (Persisting.GetObject _ _ _) as [c [[data [e|]]|e]]; simpl.
    + destruct data; simpl; now right; right; right.
    + destruct data; simpl; now left.
    + now right; right; right.
Qed.

(** X9. The validating program looks at the body only after the path, the
    method and the content type have passed: a request that fails one of
    them gets the same answer whatever the decoder would have said. *)
Theorem validating_rejects_before_decoding
    (decode1 decode2 : Reader -> Validating.xmlPayload -> Validating.xmlPayload * option error)
    (r : Request) :
  (Path r <> "/upload" \/ Method r <> "POST"
   \/ contentTypeRejected (Values_Get (Header r) "Content-Type") = true) ->
  Validating.serve decode1 r = Validating.serve decode2 r.
Proof.
  unfold Validating.serve, Validating.ServeHTTP.
  intros [HP | [HM | HC]].
  - apply String.eqb_neq in HP. fold uploadPath in HP. now rewrite HP.
  - apply String.eqb_neq in HM. fold MethodPost in HM.
    destruct (String.eqb (Path r) uploadPath); simpl; [|reflexivity].
    now rewrite HM.
  - destruct (String.eqb (Path r) uploadPath); simpl; [|reflexivity].
    destruct (String.eqb (Method r) MethodPost); simpl; [|reflexivity].
    now rewrite HC.
Qed.

Lemma validating_rejects_before_decoding_witness :
  Validating.serve Examples.decodeNonEmpty Examples.jsonUpload
  = Validating.serve (fun _ v => (v, Some "never asked")) Examples.jsonUpload.
Proof.
  apply (validating_rejects_before_decoding Examples.decodeNonEmpty
           (fun _ v => (v, Some "never asked")) Examples.jsonUpload).
  right. right. vm_compute. reflexivity.
Defined.

(** ** What a request does to the receiver *)

(** The counter and the record of calls after one request. *)
Lemma serve_effect
    (S : Type) `{Persisting.BlobStore S} (xph : Persisting.xmlParseHandler S)
    (r : Request) :
  Persisting.reqCount (fst (Persisting.serve xph r))
  = (if Persisting.mints r then Int64_Add (Persisting.reqCount xph) 1
     else Persisting.reqCount xph)
  /\ Persisting.calls (fst (Persisting.serve xph r))
     = (Persisting.calls xph
        ++ (if Persisting.mints r then
              [Persisting.CallPut "bucket1"
                 ("xmlobject/" +:+ fmt_d (Int64_Add (Persisting.reqCount xph) 1))
                 (delivered (Body r))]
            else if String.eqb (Path r) "/read" && String.eqb (Method r) "GET"
                    && negb (String.eqb (Values_Get (Query r) "bucket_id") "")
            then [Persisting.CallGet "bucket1" (Values_Get (Query r) "bucket_id")]
            else []))%list.
Proof.
  destruct (Persisting.mints r) eqn:E.
  - destruct (Persisting.PutObject (Persisting.cli xph) "bucket1"
                ("xmlobject/" +:+ fmt_d (Int64_Add (Persisting.reqCount xph) 1))
                (delivered (Body r))) as [c err] eqn:HPut.
    rewrite (minting_upload_outcome S xph r c err E HPut). split; reflexivity.
  - split; [now apply serve_not_minting_reqCount|].
    revert E.
    unfold Persisting.mints, Persisting.serve, Persisting.ServeHTTP,
      Persisting.handleUpload, Persisting.handleRead, Persisting.cli_GetObject,
      io_ReadAll.
    destruct (String.eqb_spec (Path r) uploadPath) as [HP|HP]; simpl.
    + rewrite HP. simpl.
      destruct (String.eqb (Method r) MethodPost); simpl;
        [|intros _; now rewrite app_nil_r].
      destruct (contentTypeRejected _); simpl; [intros _; now rewrite app_nil_r|].
      destruct (failure (Body r)); simpl; [intros _; now rewrite app_nil_r|discriminate].
    + intros _. fold readFilePath MethodGet.
      destruct (String.eqb (Path r) readFilePath); simpl; [|now rewrite app_nil_r].
      destruct (String.eqb (Method r) MethodGet); simpl; [|now rewrite app_nil_r].
      destruct (String.eqb (Values_Get (Query r) "bucket_id") ""); simpl;
        [now rewrite app_nil_r|].
      destruct (Persisting.GetObject _ _ _) as [c [obj|e]]; reflexivity.
Qed.

(** X10. One request makes at most one call on the client, always on
    "bucket1", and moves the counter at most once: an upload that passes
    its checks and whose body was read increments the counter and puts the
    body under the new key; a GET on [/read] with a non-empty key gets that
    key; any other request leaves counter and store alone. *)
Theorem request_effect_on_receiver
    (S : Type) `{Persisting.BlobStore S} (xph : Persisting.xmlParseHandler S)
    (r : Request) :
  Persisting.reqCount (fst (Persisting.serve xph r))
  = (if Persisting.mints r then Int64_Add (Persisting.reqCount xph) 1
     else Persisting.reqCount xph)
  /\ Persisting.calls (fst (Persisting.serve xph r))
     = (Persisting.calls xph
        ++ (if Persisting.mints r then
              [Persisting.CallPut "bucket1"
                 ("xmlobject/" +:+ fmt_d (Int64_Add (Persisting.reqCount xph) 1))
                 (delivered (Body r))]
            else if String.eqb (Path r) "/read" && String.eqb (Method r) "GET"
                    && negb (String.eqb (Values_Get (Query r) "bucket_id") "")
            then [Persisting.CallGet "bucket1" (Values_Get (Query r) "bucket_id")]
            else []))%list.
Proof. exact (serve_effect S xph r). Qed.

(** ** The key generator over many calls *)

Lemma wrap64_range (z : Z) : - 2 ^ 63 <= wrap64 z < 2 ^ 63.
Proof.
  unfold wrap64.
  pose proof (Z.mod_pos_bound (z + 2 ^ 63) (2 ^ 64) ltac:(lia)).
  change (2 ^ 64) with (2 * 2 ^ 63) in *. lia.
Qed.

Lemma wrap64_idem_add (z d : Z) : wrap64 (wrap64 z + d) = wrap64 (z + d).
Proof.
  unfold wrap64. f_equal.
  replace ((z + 2 ^ 63) mod 2 ^ 64 - 2 ^ 63 + d + 2 ^ 63)
    with ((z + 2 ^ 63) mod 2 ^ 64 + d) by lia.
  rewrite Zplus_mod_idemp_l. f_equal. lia.
Qed.

Lemma wrap64_eq_inv (a b : Z) :
  wrap64 a = wrap64 b -> exists q : Z, b - a = 2 ^ 64 * q.
Proof.
  unfold wrap64. intros E.
  assert ((a + 2 ^ 63) mod 2 ^ 64 = (b + 2 ^ 63) mod 2 ^ 64) as E' by lia.
  pose proof (Z.div_mod (a + 2 ^ 63) (2 ^ 64) ltac:(lia)) as Ha.
  pose proof (Z.div_mod (b + 2 ^ 63) (2 ^ 64) ltac:(lia)) as Hb.
  exists ((b + 2 ^ 63) / 2 ^ 64 - (a + 2 ^ 63) / 2 ^ 64). lia.
Qed.

Lemma reqCount_mintTimes
    (S : Type) (xph : Persisting.xmlParseHandler S) (k : nat) :
  Persisting.reqCount (Calls.mintTimes (Datatypes.S k) xph)
  = wrap64 (Persisting.reqCount xph + Z.of_nat (Datatypes.S k)).
Proof.
  induction k as [|k IH].
  - reflexivity.
  - change (Int64_Add (Persisting.reqCount (Calls.mintTimes (Datatypes.S k) xph)) 1
            = wrap64 (Persisting.reqCount xph + Z.of_nat (Datatypes.S (Datatypes.S k)))).
    rewrite IH. unfold Int64_Add. rewrite wrap64_idem_add. f_equal. lia.
Qed.

(** The key handed out after [k] earlier calls on a receiver whose counter
    stood at [c]. *)
Lemma composeBucketID_after
    (S : Type) (xph : Persisting.xmlParseHandler S) (k : nat) :
  fst (Persisting.composeBucketID (Calls.mintTimes k xph))
  = "xmlobject/" +:+ fmt_d (wrap64 (Persisting.reqCount xph + Z.of_nat k + 1)).
Proof.
  change (fst (Persisting.composeBucketID (Calls.mintTimes k xph)))
    with ("xmlobject/" +:+ fmt_d (Int64_Add (Persisting.reqCount (Calls.mintTimes k xph)) 1)).
  do 2 f_equal.
  destruct k as [|k].
  - unfold Int64_Add. simpl. f_equal. lia.
  - rewrite reqCount_mintTimes. unfold Int64_Add. now rewrite wrap64_idem_add.
Qed.

(** X11. The key generator does not repeat itself within [2^64 - 1]
    further calls: whatever the counter holds, the keys of two calls that
    are fewer than [2^64] calls apart are different. *)
Theorem keys_do_not_repeat_within_2_64
    (S : Type) (xph : Persisting.xmlParseHandler S) (j k : nat) :
  (j < k)%nat ->
  Z.of_nat k - Z.of_nat j < 2 ^ 64 ->
  fst (Persisting.composeBucketID (Calls.mintTimes j xph))
  <> fst (Persisting.composeBucketID (Calls.mintTimes k xph)).
Proof.
  intros Hjk Hb E. rewrite !composeBucketID_after in E.
  apply (append_inj_r "xmlobject/"), fmt_d_inj, wrap64_eq_inv in E as [q Hq].
  assert (0 < 2 ^ 64 * q < 2 ^ 64) by lia.
  change (2 ^ 64) with 18446744073709551616 in *. lia.
Qed.

Lemma keys_do_not_repeat_within_2_64_witness :
  fst (Persisting.composeBucketID (Calls.mintTimes 0 Examples.fresh))
  <> fst (Persisting.composeBucketID (Calls.mintTimes 3 Examples.fresh)).
Proof.
  apply (keys_do_not_repeat_within_2_64 MemStore.t Examples.fresh 0 3).
  - lia.
  - vm_compute. reflexivity.
Defined.

(** X12. At the top of the [int64] range the counter wraps: when it holds
    [2^63 - 1], the next key is "xmlobject/-9223372036854775808" and the
    counter holds [-2^63], so this key's number is below every number
    handed out before it. *)
Theorem composeBucketID_wraps_at_max
    (S : Type) (xph : Persisting.xmlParseHandler S) :
  Persisting.reqCount xph = 2 ^ 63 - 1 ->
  fst (Persisting.composeBucketID xph) = "xmlobject/-9223372036854775808"
  /\ Persisting.reqCount (snd (Persisting.composeBucketID xph)) = - 2 ^ 63
  /\ Persisting.reqCount (snd (Persisting.composeBucketID xph)) < Persisting.reqCount xph.
Proof.
  intros Hc. unfold Persisting.composeBucketID. simpl. rewrite Hc.
  vm_compute. repeat split; reflexivity.
Qed.

Lemma composeBucketID_wraps_at_max_witness :
  fst (Persisting.composeBucketID (Persisting.mkHandler MemStore.empty (2 ^ 63 - 1) []))
  = "xmlobject/-9223372036854775808"
  /\ Persisting.reqCount
       (snd (Persisting.composeBucketID
               (Persisting.mkHandler MemStore.empty (2 ^ 63 - 1) []))) = - 2 ^ 63
  /\ Persisting.reqCount
       (snd (Persisting.composeBucketID
               (Persisting.mkHandler MemStore.empty (2 ^ 63 - 1) [])))
     < Persisting.reqCount (Persisting.mkHandler MemStore.empty (2 ^ 63 - 1) []).
Proof.
  apply (composeBucketID_wraps_at_max MemStore.t
           (Persisting.mkHandler MemStore.empty (2 ^ 63 - 1) [])).
  reflexivity.
Defined.

(** ** The puts of a sequential run *)

Lemma putKeys_app (l l' : list Persisting.StoreCall) :
  Calls.putKeys (l ++ l') = (Calls.putKeys l ++ Calls.putKeys l')%list.
Proof. unfold Calls.putKeys. apply omap_app. Qed.

Lemma run_putKeys
    (S : Type) `{Persisting.BlobStore S} (rs : list Request) :
  forall xph : Persisting.xmlParseHandler S,
    0 <= Persisting.reqCount xph ->
    Persisting.reqCount xph + Z.of_nat (length (List.filter Persisting.mints rs)) < 2 ^ 63 ->
    Calls.putKeys (Persisting.calls (fst (Persisting.run xph rs)))
    = (Calls.putKeys (Persisting.calls xph)
       ++ ((fun i : nat => "xmlobject/" +:+ fmt_d (Persisting.reqCount xph + Z.of_nat i))
             <$> seq 1 (length (List.filter Persisting.mints rs))))%list.
Proof.
  induction rs as [|r rs IH]; intros xph H0 Hb.
  - simpl. now rewrite app_nil_r.
  - rewrite run_cons. simpl fst. simpl List.filter in *.
    destruct (serve_effect S xph r) as [Hrc Hcalls].
    destruct (Persisting.mints r) eqn:E.
    + simpl length in *. unfold Int64_Add in Hrc, Hcalls.
      rewrite wrap64_small in Hrc, Hcalls by lia.
      rewrite IH by (rewrite Hrc; lia).
      rewrite Hcalls, Hrc, putKeys_app, <- app_assoc. f_equal.
      rewrite <- cons_seq, fmap_cons. simpl. f_equal.
      rewrite <- (fmap_S_seq 1), <- list_fmap_compose.
      apply list_fmap_ext. intros _ x _. simpl. do 2 f_equal. lia.
    + rewrite IH by (rewrite Hrc; lia).
      rewrite Hcalls, Hrc, putKeys_app. f_equal.
      destruct (_ && _); simpl; now rewrite app_nil_r.
Qed.

Lemma run_buckets
    (S : Type) `{Persisting.BlobStore S} (rs : list Request) :
  forall xph : Persisting.xmlParseHandler S,
    Forall (fun c => Calls.bucketOf c = "bucket1") (Persisting.calls xph) ->
    Forall (fun c => Calls.bucketOf c = "bucket1")
           (Persisting.calls (fst (Persisting.run xph rs))).
Proof.
  induction rs as [|r rs IH]; intros xph Hall; [exact Hall|].
  rewrite run_cons. simpl fst. apply IH.
  destruct (serve_effect S xph r) as [_ ->].
  apply Forall_app. split; [exact Hall|].
  destruct (Persisting.mints r); [repeat constructor|].
  destruct (_ && _); repeat constructor.
Qed.

(** X13. After a sequential run from a new handler in which [m] uploads,
    fewer than [2^63], reached the key generator, the puts the client was
    asked for carry exactly the keys "xmlobject/1" to "xmlobject/m", in
    this order and so without repetition: no put of the run can overwrite
    the object of an earlier one.  The counter holds [m], and every call
    of the run addressed "bucket1". *)
Theorem run_puts_use_consecutive_keys
    (S : Type) `{Persisting.BlobStore S} (c : S) (rs : list Request) :
  Z.of_nat (length (List.filter Persisting.mints rs)) < 2 ^ 63 ->
  Calls.putKeys
    (Persisting.calls (fst (Persisting.run (Persisting.newXMLParseHandler c) rs)))
  = ((fun i : nat => "xmlobject/" +:+ fmt_d (Z.of_nat i))
       <$> seq 1 (length (List.filter Persisting.mints rs)))
  /\ NoDup (Calls.putKeys
              (Persisting.calls
                 (fst (Persisting.run (Persisting.newXMLParseHandler c) rs))))
  /\ Persisting.reqCount (fst (Persisting.run (Persisting.newXMLParseHandler c) rs))
     = Z.of_nat (length (List.filter Persisting.mints rs))
  /\ Forall (fun call => Calls.bucketOf call = "bucket1")
            (Persisting.calls (fst (Persisting.run (Persisting.newXMLParseHandler c) rs))).
Proof.
  intros Hb.
  assert (Calls.putKeys
            (Persisting.calls (fst (Persisting.run (Persisting.newXMLParseHandler c) rs)))
          = (fun i : nat => "xmlobject/" +:+ fmt_d (Z.of_nat i))
              <$> seq 1 (length (List.filter Persisting.mints rs))) as Hkeys.
  { rewrite (run_putKeys S rs (Persisting.newXMLParseHandler c)) by (simpl; lia).
    simpl. apply list_fmap_ext. intros _ x _. reflexivity. }
  split; [exact Hkeys|]. split; [|split].
  - rewrite Hkeys. apply NoDup_fmap_2; [|apply NoDup_seq].
    intros i j E. apply (append_inj_r "xmlobject/"), fmt_d_inj in E. lia.
  - rewrite (run_reqCount S rs (Persisting.newXMLParseHandler c)) by (simpl; lia).
    simpl. lia.
  - apply run_buckets. constructor.
Qed.

Lemma run_puts_use_consecutive_keys_witness :
  Calls.putKeys
    (Persisting.calls
       (fst (Persisting.run (Persisting.newXMLParseHandler Examples.secondPutFails)
               [Examples.upload "<a/>"; Examples.read "xmlobject/1";
                Examples.upload "<b/>"; Examples.upload "<c/>"])))
  = ["xmlobject/1"; "xmlobject/2"; "xmlobject/3"].
Proof.
  apply (proj1 (run_puts_use_consecutive_keys MemStore.t Examples.secondPutFails
                  [Examples.upload "<a/>"; Examples.read "xmlobject/1";
                   Examples.upload "<b/>"; Examples.upload "<c/>"]
                  ltac:(vm_compute; reflexivity))).
Defined.

Lemma returnedKeys_without_store_failure_witness :
  Persisting.returnedKeys
    [Examples.upload "<a/>"; Examples.read "xmlobject/1"; Examples.upload "<b/>"]
    (snd (Persisting.run Examples.fresh
            [Examples.upload "<a/>"; Examples.read "xmlobject/1"; Examples.upload "<b/>"]))
  = [bytes "xmlobject/1"; bytes "xmlobject/2"].
Proof.
  apply (returnedKeys_without_store_failure MemStore.t
           [Examples.upload "<a/>"; Examples.read "xmlobject/1"; Examples.upload "<b/>"]
           Examples.fresh).
  - simpl. lia.
  - vm_compute. reflexivity.
  - intros [|[|[|i]]] r resp Hr Hresp _; simpl in Hr; try discriminate Hr;
      vm_compute in Hresp; injection Hresp as <-; reflexivity.
Defined.

(** ** A second upload and the object of the first *)

Lemma Int64_Add_1_moves (n : Z) : Int64_Add (wrap64 n) 1 <> wrap64 n.
Proof.
  unfold Int64_Add. rewrite wrap64_idem_add. intros E.
  apply wrap64_eq_inv in E as [q Hq].
  change (2 ^ 64) with 18446744073709551616 in Hq. lia.
Qed.

(** X15. Let an upload be answered 200 with key [K], and let any other
    upload that reaches the key generator follow it, whether its put
    succeeds or not.  On a store that serves back what a successful put
    stored and on which a put under one key leaves the other keys as they
    were, reading [K] afterwards still returns the bytes of the first
    upload: the second upload was given a different key, at any value of
    the counter. *)
Theorem later_upload_keeps_earlier_object
    (S : Type) `{Persisting.BlobStore S} (xph : Persisting.xmlParseHandler S)
    (r1 r2 q : Request) (K : string) :
  Path r1 = "/upload" ->
  StatusCode (snd (Persisting.serve xph r1)) = 200 ->
  RespBody (snd (Persisting.serve xph r1)) = bytes K ->
  Persisting.mints r2 = true ->
  (forall (k : string) (d : list byte) (c : S),
      Persisting.PutObject (Persisting.cli xph) "bucket1" k d = (c, None) ->
      snd (Persisting.GetObject c "bucket1" k) = inl (mkReader d None)) ->
  (forall (k k' : string) (d : list byte) (c : S) (err : option error),
      k' <> k ->
      Persisting.PutObject (Persisting.cli (fst (Persisting.serve xph r1)))
        "bucket1" k' d = (c, err) ->
      snd (Persisting.GetObject c "bucket1" k)
      = snd (Persisting.GetObject (Persisting.cli (fst (Persisting.serve xph r1)))
               "bucket1" k)) ->
  Path q = "/read" ->
  Method q = "GET" ->
  Values_Get (Query q) "bucket_id" = K ->
  StatusCode
    (snd (Persisting.serve
            (fst (Persisting.serve (fst (Persisting.serve xph r1)) r2)) q)) = 200
  /\ RespBody
       (snd (Persisting.serve
               (fst (Persisting.serve (fst (Persisting.serve xph r1)) r2)) q))
     = delivered (Body r1).
Proof.
  intros HP H200 HK E2 Hlaw Hframe HPq HMq HQ.
  pose proof (upload_200_minted S xph r1 HP H200) as E1.
  destruct (Persisting.PutObject (Persisting.cli xph) "bucket1"
              ("xmlobject/" +:+ fmt_d (Int64_Add (Persisting.reqCount xph) 1))
              (delivered (Body r1))) as [c1 err1] eqn:HPut1.
  rewrite (minting_upload_outcome S xph r1 c1 err1 E1 HPut1) in *.
  destruct err1 as [e|]; simpl in H200, HK; [discriminate H200|].
  apply bytes_inj in HK. subst K. simpl fst in *.
  set (x1 := Persisting.mkHandler c1 (Int64_Add (Persisting.reqCount xph) 1) _) in *.
  destruct (Persisting.PutObject (Persisting.cli x1) "bucket1"
              ("xmlobject/" +:+ fmt_d (Int64_Add (Persisting.reqCount x1) 1))
              (delivered (Body r2))) as [c2 err2] eqn:HPut2.
  rewrite (minting_upload_outcome S x1 r2 c2 err2 E2 HPut2). simpl fst.
  set (x2 := Persisting.mkHandler c2 _ _).
  assert (snd (Persisting.GetObject (Persisting.cli x2) "bucket1"
                 ("xmlobject/" +:+ fmt_d (Int64_Add (Persisting.reqCount xph) 1)))
          = inl (mkReader (delivered (Body r1)) None)) as HGet.
  { assert ("xmlobject/" +:+ fmt_d (Int64_Add (Persisting.reqCount x1) 1)
            <> "xmlobject/" +:+ fmt_d (Int64_Add (Persisting.reqCount xph) 1)) as Hne.
    { simpl Persisting.reqCount. intros Heq.
      apply (append_inj_r "xmlobject/"), fmt_d_inj in Heq.
      unfold Int64_Add at 2 3 in Heq. exact (Int64_Add_1_moves _ Heq). }
    simpl Persisting.cli.
    rewrite (Hframe _ _ _ _ _ Hne HPut2).
    exact (Hlaw _ _ _ HPut1). }
  destruct (Persisting.GetObject (Persisting.cli x2) "bucket1"
              ("xmlobject/" +:+ fmt_d (Int64_Add (Persisting.reqCount xph) 1)))
    as [c' res] eqn:HG.
  simpl in HGet. subst res. rewrite <- HQ in HG.
  assert (Values_Get (Query q) "bucket_id" <> "") as HB.
  { rewrite HQ. discriminate. }
  exact (read_drained_response S x2 q c' (mkReader (delivered (Body r1)) None)
           HPq HMq HB HG).
Qed.

(** A put on the in-memory store leaves the other keys as they were. *)
Lemma MemStore_put_frame (s c : MemStore.t) (bucket k k' : string) (d : list byte)
    (err : option error) :
  k' <> k ->
  MemStore.put s bucket k' d = (c, err) ->
  snd (MemStore.get c bucket k) = snd (MemStore.get s bucket k).
Proof.
  intros Hne. unfold MemStore.put.
  destruct (MemStore.putFaults s) as [|[|] fs]; intros [= <- <-];
    unfold MemStore.get; simpl; rewrite ?lookup_insert_ne by congruence;
    destruct (MemStore.objects s !! (bucket, k)); try reflexivity;
    destruct (MemStore.readCut s); reflexivity.
Qed.

Lemma later_upload_keeps_earlier_object_witness :
  StatusCode
    (snd (Persisting.serve
            (fst (Persisting.serve
                    (fst (Persisting.serve Examples.fresh (Examples.upload "<a/>")))
                    (Examples.upload "<b/>")))
            (Examples.read "xmlobject/1"))) = 200
  /\ RespBody
       (snd (Persisting.serve
               (fst (Persisting.serve
                       (fst (Persisting.serve Examples.fresh (Examples.upload "<a/>")))
                       (Examples.upload "<b/>")))
               (Examples.read "xmlobject/1")))
     = delivered (Body (Examples.upload "<a/>")).
Proof.
  apply (later_upload_keeps_earlier_object MemStore.t Examples.fresh
           (Examples.upload "<a/>") (Examples.upload "<b/>")
           (Examples.read "xmlobject/1") "xmlobject/1").
  - reflexivity.
  - vm_compute. reflexivity.
  - vm_compute. reflexivity.
  - vm_compute. reflexivity.
  - intros k d c. apply MemStore_put_get. reflexivity.
  - intros k k' d c err. apply MemStore_put_frame.
  - reflexivity.
  - reflexivity.
  - vm_compute. reflexivity.
Defined.

(** ** One goroutine after the other *)

(** The two steps of a goroutine that has not started, taken back to back:
    the receiver is where [serve] leaves it and the goroutine has replied
    with the response of [serve]; the other goroutines are untouched. *)
Lemma two_steps_are_serve
    (S : Type) `{Persisting.BlobStore S} (sys : Concurrent.System S) (i : nat)
    (r : Request) :
  Concurrent.pool sys !! i = Some (Concurrent.Pending r) ->
  exists k,
    Concurrent.shared (Concurrent.step i (Concurrent.step i sys))
    = fst (Persisting.serve (Concurrent.shared sys) r)
    /\ Concurrent.pool (Concurrent.step i (Concurrent.step i sys))
       = <[i := Concurrent.Replied k (snd (Persisting.serve (Concurrent.shared sys) r))]>
           (Concurrent.pool sys).
Proof.
  intros Hi. pose proof (lookup_lt_Some _ _ _ Hi) as Hlt.
  destruct (Persisting.mints r) eqn:E.
  - assert (Concurrent.step i sys
            = Concurrent.mkSystem
                (snd (Persisting.composeBucketID (Concurrent.shared sys)))
                (<[i := Concurrent.Minted
                          (fst (Persisting.composeBucketID (Concurrent.shared sys)))
                          (delivered (Body r))]> (Concurrent.pool sys))
                (Concurrent.history sys
                 ++ [(i, Persisting.reqCount
                           (snd (Persisting.composeBucketID (Concurrent.shared sys))))]))
      as ->.
    { unfold Concurrent.step. rewrite Hi, E. reflexivity. }
    rewrite (serve_minting_upload S (Concurrent.shared sys) r E).
    unfold Concurrent.step. cbn [Concurrent.pool Concurrent.shared Concurrent.history].
    rewrite list_lookup_insert_eq by exact Hlt.
    destruct (Concurrent.storeAndReply _ newResponseWriter _ (delivered (Body r)))
      as [x' w] eqn:Hs.
    cbn [Concurrent.pool Concurrent.shared fst snd].
    eexists. split; [reflexivity|]. now rewrite list_insert_insert_eq.
  - assert (Concurrent.step i sys
            = Concurrent.mkSystem
                (fst (Persisting.serve (Concurrent.shared sys) r))
                (<[i := Concurrent.Replied None
                          (snd (Persisting.serve (Concurrent.shared sys) r))]>
                   (Concurrent.pool sys))
                (Concurrent.history sys)) as ->.
    { unfold Concurrent.step. rewrite Hi, E.
      destruct (Persisting.serve (Concurrent.shared sys) r). reflexivity. }
    unfold Concurrent.step. cbn [Concurrent.pool Concurrent.shared Concurrent.history].
    rewrite list_lookup_insert_eq by exact Hlt.
    exists None. split; reflexivity.
Qed.

Lemma exec_app
    (S : Type) `{Persisting.BlobStore S} (s1 s2 : list nat) (sys : Concurrent.System S) :
  Concurrent.exec (s1 ++ s2) sys = Concurrent.exec s2 (Concurrent.exec s1 sys).
Proof. unfold Concurrent.exec. apply fold_left_app. Qed.

Lemma oneByOne_run
    (S : Type) `{Persisting.BlobStore S} (rs : list Request) :
  forall (sys : Concurrent.System S) (done : list Concurrent.Goroutine),
    Concurrent.pool sys = (done ++ (Concurrent.Pending <$> rs))%list ->
    Concurrent.shared
      (Concurrent.exec (Schedules.oneByOne (length done) (length rs)) sys)
    = fst (Persisting.run (Concurrent.shared sys) rs)
    /\ Schedules.replyOf
         <$> Concurrent.pool
               (Concurrent.exec (Schedules.oneByOne (length done) (length rs)) sys)
       = ((Schedules.replyOf <$> done)
          ++ (Some <$> snd (Persisting.run (Concurrent.shared sys) rs)))%list.
Proof.
  induction rs as [|r rs IH]; intros sys done Hpool.
  - simpl. rewrite Hpool. simpl. rewrite !app_nil_r. auto.
  - rewrite run_cons. simpl fst. simpl snd.
    change (Schedules.oneByOne (length done) (length (r :: rs)))
      with ([length done; length done]
            ++ Schedules.oneByOne (Datatypes.S (length done)) (length rs))%list.
    rewrite exec_app.
    change (Concurrent.exec [length done; length done] sys)
      with (Concurrent.step (length done) (Concurrent.step (length done) sys)).
    assert (Concurrent.pool sys !! length done = Some (Concurrent.Pending r)) as Hi.
    { rewrite Hpool, fmap_cons. now apply list_lookup_middle. }
    destruct (two_steps_are_serve S sys (length done) r Hi) as (k & Hsh & Hp).
    set (sys' := Concurrent.step (length done) (Concurrent.step (length done) sys)) in *.
    assert (Concurrent.pool sys'
            = ((done ++ [Concurrent.Replied k (snd (Persisting.serve (Concurrent.shared sys) r))])
               ++ (Concurrent.Pending <$> rs))%list) as Hpool'.
    { rewrite Hp, Hpool, fmap_cons.
      rewrite insert_app_r_alt by lia. rewrite Nat.sub_diag. simpl.
      now rewrite <- app_assoc. }
    specialize (IH sys' _ Hpool').
    rewrite length_app in IH. simpl in IH. rewrite Nat.add_1_r in IH.
    destruct IH as [IH1 IH2]. rewrite Hsh in IH1, IH2.
    split; [exact IH1|].
    rewrite IH2, fmap_app, <- app_assoc. reflexivity.
Qed.

(** X16. Running the goroutines one after the other, each one's steps back
    to back, is the sequential run: the receiver ends where [run] leaves
    it, and the goroutines have replied with the responses of [run], in the
    order of the requests.  The sequential runs are thus among the
    executions the concurrent model covers. *)
Theorem one_by_one_schedule_is_run
    (S : Type) `{Persisting.BlobStore S} (xph : Persisting.xmlParseHandler S)
    (rs : list Request) :
  Concurrent.shared
    (Concurrent.exec (Schedules.oneByOne 0 (length rs)) (Concurrent.spawn xph rs))
  = fst (Persisting.run xph rs)
  /\ Schedules.replyOf
       <$> Concurrent.pool
             (Concurrent.exec (Schedules.oneByOne 0 (length rs)) (Concurrent.spawn xph rs))
     = Some <$> snd (Persisting.run xph rs).
Proof.
  exact (oneByOne_run S rs (Concurrent.spawn xph rs) [] eq_refl).
Qed.

Lemma exec_pool_length
    (S : Type) `{Persisting.BlobStore S} (sched : list nat) :
  forall sys : Concurrent.System S,
    Z.of_nat (length (Concurrent.pool sys)) < 2 ^ 63 ->
    Concurrent.consistent sys ->
    length (Concurrent.pool (Concurrent.exec sched sys)) = length (Concurrent.pool sys).
Proof.
  unfold Concurrent.exec.
  induction sched as [|i sched IH]; intros sys Hb Hc; simpl; [reflexivity|].
  destruct (step_consistent S sys i Hb Hc) as [Hc' Hlen].
  rewrite IH; [exact Hlen | rewrite Hlen; exact Hb | exact Hc'].
Qed.

(** X17. Under any schedule, with fewer than [2^63] requests against a new
    handler, the counter equals the number of goroutines that have been
    given a key, and so never exceeds the number of requests: no
    interleaving makes an upload increment it twice or a request other than
    a checked upload increment it at all. *)
Theorem concurrent_counter_counts_key_holders
    (S : Type) `{Persisting.BlobStore S} (c : S) (rs : list Request)
    (sched : list nat) :
  Z.of_nat (length rs) < 2 ^ 63 ->
  Persisting.reqCount
    (Concurrent.shared
       (Concurrent.exec sched (Concurrent.spawn (Persisting.newXMLParseHandler c) rs)))
  = Z.of_nat
      (Concurrent.holders
         (Concurrent.pool
            (Concurrent.exec sched (Concurrent.spawn (Persisting.newXMLParseHandler c) rs))))
  /\ 0 <= Persisting.reqCount
            (Concurrent.shared
               (Concurrent.exec sched
                  (Concurrent.spawn (Persisting.newXMLParseHandler c) rs)))
       <= Z.of_nat (length rs).
Proof.
  intros Hb.
  assert (Z.of_nat (length (Concurrent.pool
                              (Concurrent.spawn (Persisting.newXMLParseHandler c) rs)))
          < 2 ^ 63) as Hb'.
  { simpl. rewrite length_fmap. exact Hb. }
  pose proof (spawn_consistent S c rs) as Hc0.
  pose proof (exec_consistent S sched _ Hb' Hc0) as [Hcount Hctr _ _ _].
  pose proof (exec_pool_length S sched _ Hb' Hc0) as Hlen.
  simpl in Hlen. rewrite length_fmap in Hlen.
  pose proof (holders_le_length
                (Concurrent.pool
                   (Concurrent.exec sched
                      (Concurrent.spawn (Persisting.newXMLParseHandler c) rs)))) as Hle.
  rewrite Hctr, Hcount. split; [reflexivity | lia].
Qed.

Lemma concurrent_counter_counts_key_holders_witness :
  Persisting.reqCount
    (Concurrent.shared
       (Concurrent.exec [2; 0; 2; 1]%nat
          (Concurrent.spawn Examples.fresh
             [Examples.upload "<a/>"; Examples.read "xmlobject/1";
              Examples.upload "<b/>"])))
  = Z.of_nat
      (Concurrent.holders
         (Concurrent.pool
            (Concurrent.exec [2; 0; 2; 1]%nat
               (Concurrent.spawn Examples.fresh
                  [Examples.upload "<a/>"; Examples.read "xmlobject/1";
                   Examples.upload "<b/>"]))))
  /\ 0 <= Persisting.reqCount
            (Concurrent.shared
               (Concurrent.exec [2; 0; 2; 1]%nat
                  (Concurrent.spawn Examples.fresh
                     [Examples.upload "<a/>"; Examples.read "xmlobject/1";
                      Examples.upload "<b/>"])))
       <= Z.of_nat (length [Examples.upload "<a/>"; Examples.read "xmlobject/1";
                            Examples.upload "<b/>"]).
Proof.
  apply (concurrent_counter_counts_key_holders MemStore.t MemStore.empty
           [Examples.upload "<a/>"; Examples.read "xmlobject/1"; Examples.upload "<b/>"]
           [2; 0; 2; 1]%nat).
  vm_compute. reflexivity.
Defined.

(** ** Start-up *)

(** X18. The persisting program starts serving exactly when the storage
    client could be built and both [CERT_FILE] and [KEY_FILE] are set to
    non-empty values; it then serves TLS on ":8000" with these two file
    names.  A variable that is set but empty counts as missing, and a
    missing [CERT_FILE] is the one reported, whatever [KEY_FILE] holds. *)
Theorem startup_serves_iff_configured
    (env : gmap string string) (minio_New : option error)
    (addr certFile keyFile : string) :
  (Startup.main env minio_New = Startup.ListenAndServeTLS addr certFile keyFile
   <-> minio_New = None /\ addr = ":8000"
       /\ env !! "CERT_FILE" = Some certFile /\ certFile <> ""
       /\ env !! "KEY_FILE" = Some keyFile /\ keyFile <> "")
  /\ (minio_New = None ->
      (env !! "CERT_FILE" = None \/ env !! "CERT_FILE" = Some "") ->
      Startup.main env minio_New
      = Startup.Fatal "Missing required environment variable: CERT_FILE").
Proof.
  unfold Startup.main, Startup.mustObjectStorage, Startup.os_Getenv,
    Startup.certFileEnv, Startup.keyFileEnv.
  split.
  - destruct minio_New as [e|]; [split; [discriminate | intros [? _]; discriminate]|].
    destruct (env !! "CERT_FILE") as [cf|] eqn:Hc; simpl;
      [|split; [discriminate | intros (_ & _ & ? & _); discriminate]].
    destruct (String.eqb_spec cf "") as [->|Hcf].
    { split; [discriminate|]. intros (_ & _ & [= <-] & Hne & _). now destruct Hne. }
    destruct (env !! "KEY_FILE") as [kf|] eqn:Hk; simpl;
      [|split; [discriminate | intros (_ & _ & _ & _ & ? & _); discriminate]].
    destruct (String.eqb_spec kf "") as [->|Hkf].
    { split; [discriminate|]. intros (_ & _ & _ & _ & [= <-] & Hne). now destruct Hne. }
    split.
    + intros [= <- <- <-]. repeat split; auto.
    + intros (_ & -> & [= <-] & _ & [= <-] & _). reflexivity.
  - intros -> [-> | ->]; reflexivity.
Qed.

Lemma startup_serves_iff_configured_witness :
  Startup.main Examples.fullEnv None
  = Startup.ListenAndServeTLS ":8000" "cert.pem" "key.pem"
  /\ Startup.main Examples.certOnlyEnv None
     = Startup.Fatal "Missing required environment variable: KEY_FILE"
  /\ Startup.main ∅ None
     = Startup.Fatal "Missing required environment variable: CERT_FILE".
Proof.
  split; [|split].
  - apply (proj2 (proj1 (startup_serves_iff_configured Examples.fullEnv None
                           ":8000" "cert.pem" "key.pem"))).
    repeat split; try discriminate; vm_compute; reflexivity.
  - vm_compute. reflexivity.
  - apply (proj2 (startup_serves_iff_configured ∅ None "" "" "") eq_refl).
    left. reflexivity.
Defined.

(** ** A drain that fails *)

(** X19. When the get of a read succeeds and draining the object fails, the
    status is 500 and the body begins with "failed to read object",
    followed by whatever bytes had been read before the error; when the
    error came before any byte, the body is the message alone. *)
Theorem read_drain_failure_response
    (S : Type) `{Persisting.BlobStore S} (xph : Persisting.xmlParseHandler S)
    (r : Request) (c : S) (part : list byte) (e : error) :
  Path r = "/read" ->
  Method r = "GET" ->
  Values_Get (Query r) "bucket_id" <> "" ->
  Persisting.GetObject (Persisting.cli xph) "bucket1"
    (Values_Get (Query r) "bucket_id") = (c, inl (mkReader part (Some e))) ->
  StatusCode (snd (Persisting.serve xph r)) = 500
  /\ RespBody (snd (Persisting.serve xph r))
     = (bytes "failed to read object" ++ part)%list
  /\ (part = [] ->
      RespBody (snd (Persisting.serve xph r)) = bytes "failed to read object").
Proof.
  intros HP HM HB HG.
  destruct (read_drained_response S xph r c (mkReader part (Some e)) HP HM HB HG)
    as [H1 H2].
  cbn [failure delivered] in H1, H2. repeat split; [exact H1 | exact H2 |].
  intros E. rewrite H2, E. apply app_nil_r.
Qed.

Lemma read_drain_failure_response_witness :
  StatusCode (snd (Persisting.serve (Persisting.newXMLParseHandler Examples.cutStore)
                     (Examples.read "xmlobject/1"))) = 500
  /\ RespBody (snd (Persisting.serve (Persisting.newXMLParseHandler Examples.cutStore)
                      (Examples.read "xmlobject/1")))
     = (bytes "failed to read object" ++ bytes "<a")%list
  /\ (bytes "<a" = [] ->
      RespBody (snd (Persisting.serve (Persisting.newXMLParseHandler Examples.cutStore)
                       (Examples.read "xmlobject/1")))
      = bytes "failed to read object").
Proof.
  apply (read_drain_failure_response MemStore.t
           (Persisting.newXMLParseHandler Examples.cutStore)
           (Examples.read "xmlobject/1") Examples.cutStore (bytes "<a")
           "read: connection reset").
  - reflexivity.
  - reflexivity.
  - vm_compute. discriminate.
  - vm_compute. reflexivity.
Defined.

(** * The validating upload and the decoder *)

(** ** Reading bytes *)



















(** ** The record of a document *)




(** ** What [Decode] returns *)











